(** * Buildbot reporters: the message formatter ([master/buildbot/reporters/message.py])

    A shallow embedding of the status-text derivation functions, the template
    store ([getTemplate]), the renderer ([renderMessage]) and the two formatter
    entry points, followed by the properties of the specification that were
    checked against them. *)

From Stdlib Require Import ZArith String Ascii List.
From stdpp Require Import base decidable option list gmap strings.

Local Open Scope string_scope.
Local Open Scope Z_scope.

#[local] Set Warnings "-register-all,-notation-for-abbreviation".

(** ** Python values and truthiness *)

(** Python's [bool(x)] for the kinds of value the module tests in a condition:
    a string is true when it is not empty, an integer when it is not zero, and
    [None] is false. *)
Class Truthy (A : Type) := truthy : A → bool.
Global Hint Mode Truthy ! : typeclass_instances.

Global Instance string_truthy : Truthy string :=
  λ s, match s with EmptyString => false | String _ _ => true end.
Global Instance Z_truthy : Truthy Z := λ n, negb (n =? 0).
Global Instance option_truthy {A} `{Truthy A} : Truthy (option A) :=
  λ o, match o with None => false | Some a => truthy a end.

(** [x or default] on an optional value. *)
Definition py_or {A} `{Truthy A} (x : option A) (default : A) : A :=
  match x with
  | Some a => if truthy a then a else default
  | None => default
  end.

(** [tag in mode]: the reporting mode is a sequence of string tags. *)
Definition py_in (tag : string) (mode : list string) : bool :=
  bool_decide (tag ∈ mode).

(** ** [buildbot.process.results]

    The result constants and [statusToString] are imported from a module
    that is not part of the sources at hand; the formatter is parametric in
    them.  A result is an integer code, [None] while a build is unfinished. *)
Class Results := {
  SUCCESS : Z;
  WARNINGS : Z;
  FAILURE : Z;
  EXCEPTION : Z;
  CANCELLED : Z;
  statusToString : option Z → string
}.

(** ** Data model

    The records the formatter reads.  They are Python dictionaries in the
    source; every key the module subscripts is a field here. *)

(** Loosely typed Python data: property values, worker records and whatever
    an operator puts in the extra context. *)
Inductive pyval :=
  | PNone
  | PBool (b : bool)
  | PInt (n : Z)
  | PStr (s : string)
  | PList (l : list pyval)
  | PDict (d : list (string * pyval)).

(** A patch is only ever tested against [None]. *)
Variant Patch := APatch.

Record SourceStamp := {
  ss_branch : option string;
  ss_revision : option string;
  ss_patch : option Patch;
  ss_codebase : option string;
  ss_project : option string
}.

Record Buildset := { sourcestamps : list SourceStamp }.

Record Builder := { builderid : Z; builder_name : string }.

Record PrevBuild := { prev_results : option Z }.

Record Build := {
  build_results : option Z;
  build_state_string : option string;
  build_properties : gmap string (pyval * string);
  build_builder : Builder;
  build_number : Z;
  build_buildset : Buildset;
  build_prev_build : option PrevBuild
}.

Record MasterConfig := { title : string; buildbotURL : string }.

(** [utils.getURLForBuild(master, builderid, number)] belongs to the
    reporters' utilities; it is carried by the master here. *)
Record Master := {
  config : MasterConfig;
  getURLForBuild : Z → Z → string
}.

(** A value stored in a rendering context. *)
Inductive ctxval :=
  | CVal (v : pyval)
  | CBuild (b : Build)
  | CBuildset (b : Buildset).

Definition of_result (r : option Z) : ctxval :=
  match r with Some n => CVal (PInt n) | None => CVal PNone end.

Definition of_strings (l : list string) : ctxval := CVal (PList (PStr <$> l)).

(** ** Status text derivation *)

Section status_text.
Context `{R : Results}.

Definition get_detected_status_text
    (mode : list string) (results previous_results : option Z) : string :=
  if bool_decide (results = Some FAILURE) then
    if py_in "change" mode
       && bool_decide (previous_results ≠ None)
       && bool_decide (previous_results ≠ results)
    then "new failure"
    else if py_in "problem" mode
            && truthy previous_results
            && bool_decide (previous_results ≠ Some FAILURE)
    then "new failure"
    else "failed build"
  else if bool_decide (results = Some WARNINGS) then "problem in the build"
  else if bool_decide (results = Some SUCCESS) then
    if py_in "change" mode
       && bool_decide (previous_results ≠ None)
       && bool_decide (previous_results ≠ results)
    then "restored build"
    else "passing build"
  else if bool_decide (results = Some EXCEPTION) then "build exception"
  else statusToString results +:+ " build".

Definition get_message_summary_text
    (build : Build) (results : option Z) : string :=
  let t := match build_state_string build with
           | Some t => if truthy t then ": " +:+ t else ""
           | None => ""
           end in
  if bool_decide (results = Some SUCCESS) then "Build succeeded!"
  else if bool_decide (results = Some WARNINGS) then "Build Had Warnings" +:+ t
  else if bool_decide (results = Some CANCELLED) then "Build was cancelled"
  else "BUILD FAILED" +:+ t.
End status_text.

(** ** Source stamps and projects *)

Definition newline : string := String (ascii_of_nat 10) EmptyString.

(** The body of the loop of [get_message_source_stamp_text]: the text so far,
    extended by the line of one source stamp. *)
Definition source_stamp_step (text : string) (ss : SourceStamp) : string :=
  let source := "" in
  let source :=
    match ss_branch ss with
    | Some b => if truthy b then source +:+ "[branch " +:+ b +:+ "] " else source
    | None => source
    end in
  let source :=
    match ss_revision ss with
    | Some r => if truthy r then source +:+ r else source +:+ "HEAD"
    | None => source +:+ "HEAD"
    end in
  let source :=
    match ss_patch ss with
    | Some _ => source +:+ " (plus patch)"
    | None => source
    end in
  let discriminator :=
    match ss_codebase ss with
    | Some c => if truthy c then " '" +:+ c +:+ "'" else ""
    | None => ""
    end in
  text +:+ ("Build Source Stamp" +:+ discriminator +:+ ": " +:+ source +:+ newline).

Definition get_message_source_stamp_text (source_stamps : list SourceStamp) : string :=
  fold_left source_stamp_step source_stamps "".

Section projects.
(** [list(projects)] enumerates a Python set in an order the language does
    not fix; the enumeration is a parameter. *)
Variable set_iter : gset string → list string.

Definition add_project (projects : gset string) (ss : SourceStamp) : gset string :=
  match ss_project ss with
  | Some p => if truthy p then projects ∪ {[p]} else projects
  | None => projects
  end.

Definition collect_projects (source_stamps : list SourceStamp) : gset string :=
  fold_left add_project source_stamps ∅.

Definition get_projects_text (source_stamps : list SourceStamp) (master : Master) : string :=
  let projects := collect_projects source_stamps in
  let projects :=
    if bool_decide (projects = ∅) then [title (config master)]
    else set_iter projects in
  String.concat ", " projects.
End projects.

(** ** Exceptions *)

Inductive error :=
  | ConfigErrors (msg : string)
  | TemplateNotFound (name : string)
  | TemplateSyntaxError
  | UndefinedError (name : string).

(** The outcome of a call that may raise. *)
Inductive exc (A : Type) :=
  | Ok (a : A)
  | Raise (e : error).
Arguments Ok {A} a.
Arguments Raise {A} e.

Global Instance exc_ret : MRet exc := λ A a, Ok a.
Global Instance exc_bind : MBind exc := λ A B f m,
  match m with Ok a => f a | Raise e => Raise e end.
Global Instance exc_fmap : FMap exc := λ A B f m,
  match m with Ok a => Ok (f a) | Raise e => Raise e end.

(** Modelled from the spec: [config.error] lives in [buildbot.config], which is
    not part of the sources at hand; the spec has the call fail with a
    configuration error, and so it does when a formatter is built outside an
    error-collecting configuration load. *)
Definition config_error {A} (msg : string) : exc A := Raise (ConfigErrors msg).

(** ** Templates

    The fragment of [jinja2] the formatter relies on: a compiled template is a
    sequence of literal data and references to context keys, together with
    the environment's policy for a key that is absent at rendering. *)

Inductive node :=
  | TemplateData (s : string)
  | Name (key : string).

Inductive undefined_policy :=
  | Undefined        (* jinja2's default: renders as the empty string *)
  | StrictUndefined. (* raises [UndefinedError] *)

Record Template := {
  undefined : undefined_policy;
  nodes : list node
}.

Global Instance node_eq_dec : EqDecision node.
Proof. solve_decision. Defined.

Section jinja.
(** The template parser ([None]: a syntax error) and [str] on context
    values are the template engine's and Python's. *)
Variable parse : string → option (list node).
Variable py_str : ctxval → string.
(** The template files on disk, by directory and file name. *)
Variable fs : gmap (string * string) string.

Definition compile (policy : undefined_policy) (source : string) : exc Template :=
  match parse source with
  | Some ns => Ok {| undefined := policy; nodes := ns |}
  | None => Raise TemplateSyntaxError
  end.

(** [jinja2.Template(content)]: a template of the default environment. *)
Definition jinja2_Template (content : string) : exc Template :=
  compile Undefined content.

(** [Environment(loader=FileSystemLoader(dirname), undefined=policy).get_template(filename)] *)
Definition get_template (dirname : string) (policy : undefined_policy)
    (filename : string) : exc Template :=
  match fs !! (dirname, filename) with
  | Some source => compile policy source
  | None => Raise (TemplateNotFound filename)
  end.

Definition render_node (policy : undefined_policy)
    (ctx : gmap string ctxval) (n : node) : exc string :=
  match n with
  | TemplateData s => Ok s
  | Name key =>
      match ctx !! key with
      | Some v => Ok (py_str v)
      | None =>
          match policy with
          | Undefined => Ok ""
          | StrictUndefined => Raise (UndefinedError key)
          end
      end
  end.

Fixpoint render_nodes (policy : undefined_policy)
    (ctx : gmap string ctxval) (ns : list node) : exc string :=
  match ns with
  | [] => Ok ""
  | n :: ns =>
      s ← render_node policy ctx n;
      rest ← render_nodes policy ctx ns;
      Ok (s +:+ rest)
  end.

Definition render (t : Template) (ctx : gmap string ctxval) : exc string :=
  render_nodes (undefined t) ctx (nodes t).
End jinja.

(** ** Formatters *)

(** What a formatter class fixes: its class attributes and the overridable
    hook [buildAdditionalContext], which may rewrite the context it is given
    in place. *)
Record FormatterClass := {
  cls_template_filename : string;
  cls_template_type : string;
  buildAdditionalContext : Master → gmap string ctxval → gmap string ctxval
}.

(** The hook of the classes of this module does nothing. *)
Definition MessageFormatterBase_class : FormatterClass :=
  {| cls_template_filename := "default_mail.txt";
     cls_template_type := "plain";
     buildAdditionalContext := λ _ ctx, ctx |}.

Definition MessageFormatter_class : FormatterClass :=
  {| cls_template_filename := "default_mail.txt";
     cls_template_type := "plain";
     buildAdditionalContext := buildAdditionalContext MessageFormatterBase_class |}.

Definition MessageFormatterMissingWorker_class : FormatterClass :=
  {| cls_template_filename := "missing_mail.txt";
     cls_template_type := cls_template_type MessageFormatterBase_class;
     buildAdditionalContext := buildAdditionalContext MessageFormatterBase_class |}.

(** The attributes [__init__] sets on an instance. *)
Record MessageFormatterBase := {
  class_of : FormatterClass;
  body_template : Template;
  subject_template : option Template;
  template_type : string;
  ctx : gmap string ctxval
}.

(** [d.update(other)] *)
Definition dict_update {V} (d other : gmap string V) : gmap string V := other ∪ d.

Section formatter.
Context `{R : Results}.
Variable parse : string → option (list node).
Variable py_str : ctxval → string.
Variable fs : gmap (string * string) string.
(** [os.path.join(os.path.dirname(__file__), "templates")] *)
Variable templates_dir : string.
Variable set_iter : gset string → list string.

Definition getTemplate (cls : FormatterClass)
    (filename dirname content : option string) : exc Template :=
  _ ← (if truthy content && (truthy filename || truthy dirname)
       then config_error "Only one of template or template path can be given"
       else Ok ());
  let from_file :=
    let dirname := match dirname with Some d => d | None => templates_dir end in
    let filename := match filename with Some f => f | None => cls_template_filename cls end in
    get_template parse fs dirname StrictUndefined filename in
  match content with
  | Some c => if truthy c then jinja2_Template parse c else from_file
  | None => from_file
  end.

Definition MessageFormatterBase_init (cls : FormatterClass)
    (template_dir template_filename template subject_filename subject
       template_type : option string)
    (ctx : option (gmap string ctxval)) : exc MessageFormatterBase :=
  body_template ← getTemplate cls template_filename template_dir template;
  subject_template ←
    (if truthy subject_filename || truthy subject
     then Some <$> getTemplate cls subject_filename template_dir subject
     else Ok None);
  let template_type :=
    match template_type with Some t => t | None => cls_template_type cls end in
  let ctx := match ctx with Some c => c | None => ∅ end in
  Ok {| class_of := cls;
        body_template := body_template;
        subject_template := subject_template;
        template_type := template_type;
        ctx := ctx |}.

(** [MessageFormatter.__init__]: [template_name] is a deprecated spelling of
    [template_filename]; the [want*] flags are read by other modules only. *)
Definition MessageFormatter_init
    (template_dir template_filename template template_name subject_filename
       subject template_type : option string)
    (ctx : option (gmap string ctxval)) : exc MessageFormatterBase :=
  let template_filename :=
    match template_name with Some n => Some n | None => template_filename end in
  MessageFormatterBase_init MessageFormatter_class template_dir
    template_filename template subject_filename subject template_type ctx.

Definition renderMessage (self : MessageFormatterBase)
    (ctx : gmap string ctxval) : exc (gmap string string) :=
  body ← render py_str (body_template self) ctx;
  let msgdict : gmap string string :=
    <["type" := template_type self]> (<["body" := body]> ∅) in
  match subject_template self with
  | Some t => subject ← render py_str t ctx; Ok (<["subject" := subject]> msgdict)
  | None => Ok msgdict
  end.

(** The [dict(...)] built by [format_message_for_build]. *)
Definition build_ctx (mode : list string) (buildername : string)
    (build : Build) (master : Master) (blamelist : list string)
    : gmap string ctxval :=
  let buildset := build_buildset build in
  let ss_list := sourcestamps buildset in
  let results := build_results build in
  let previous_results :=
    match build_prev_build build with
    | Some prev => prev_results prev
    | None => None
    end in
  list_to_map
    [ ("results", of_result (build_results build));
      ("mode", of_strings mode);
      ("buildername", CVal (PStr buildername));
      ("workername",
        CVal (match build_properties build !! "workername" with
              | Some (v, _) => v
              | None => PStr "<unknown>"
              end));
      ("buildset", CBuildset buildset);
      ("build", CBuild build);
      ("projects", CVal (PStr (get_projects_text set_iter ss_list master)));
      ("previous_results", of_result previous_results);
      ("status_detected",
        CVal (PStr (get_detected_status_text mode results previous_results)));
      ("build_url",
        CVal (PStr (getURLForBuild master (builderid (build_builder build))
                      (build_number build))));
      ("buildbot_url", CVal (PStr (buildbotURL (config master))));
      ("blamelist", of_strings blamelist);
      ("summary", CVal (PStr (get_message_summary_text build results)));
      ("sourcestamps", CVal (PStr (get_message_source_stamp_text ss_list))) ].

(** The context handed to [renderMessage]: the computed one, passed through
    the hook, then updated with [self.ctx]. *)
Definition final_ctx (self : MessageFormatterBase) (master : Master)
    (computed : gmap string ctxval) : gmap string ctxval :=
  let hooked := buildAdditionalContext (class_of self) master computed in
  dict_update hooked (ctx self).

Definition format_message_for_build (self : MessageFormatterBase)
    (mode : list string) (buildername : string) (build : Build)
    (master : Master) (blamelist : list string) : exc (gmap string string) :=
  let ctx := build_ctx mode buildername build master blamelist in
  let ctx := final_ctx self master ctx in
  renderMessage self ctx.

(** The [dict(...)] built by [formatMessageForMissingWorker]. *)
Definition missing_worker_ctx (master : Master) (worker : pyval)
    : gmap string ctxval :=
  list_to_map
    [ ("buildbot_title", CVal (PStr (title (config master))));
      ("buildbot_url", CVal (PStr (buildbotURL (config master))));
      ("worker", CVal worker) ].

Definition formatMessageForMissingWorker (self : MessageFormatterBase)
    (master : Master) (worker : pyval) : exc (gmap string string) :=
  let ctx := missing_worker_ctx master worker in
  let ctx := final_ctx self master ctx in
  renderMessage self ctx.
End formatter.

(** ** A concrete results module and a concrete parser

    Used to run the definitions above on examples. *)

Module canonical.
(** Modelled from the spec: [buildbot.process.results] is not part of the
    sources at hand.  The spec has numeric result codes and, for the
    generic status word, "the canonical display name of that result code";
    the codes and display names below are Buildbot's seven, with its words
    for an unfinished build and for a number that is no result code. *)
Definition Results_names : list string :=
  ["success"; "warnings"; "failure"; "skipped"; "exception"; "retry"; "cancelled"].

Definition statusToString (status : option Z) : string :=
  match status with
  | None => "not finished"
  | Some n =>
      if (n <? 0) || (Z.of_nat (length Results_names) <=? n) then "Invalid status"
      else default "" (Results_names !! Z.to_nat n)
  end.

Definition SKIPPED : Z := 3.
Definition RETRY : Z := 5.

#[export] Instance results : Results :=
  Build_Results 0 1 2 4 6 statusToString.
End canonical.

Module mini_jinja.
(** A parser for the templates made of literal text and [{{ name }}]
    references only.  Anything else ([{% ... %}], comments, filters,
    attribute access, literals and the names every environment defines)
    is outside the fragment and refused. *)
Definition is_space (c : ascii) : bool := (c =? " ")%char.

Definition is_ident_char (c : ascii) : bool :=
  let n := nat_of_ascii c in
  ((97 <=? n) && (n <=? 122) || (65 <=? n) && (n <=? 90)
   || (48 <=? n) && (n <=? 57) || (n =? 95))%nat.

Definition is_digit (c : ascii) : bool :=
  let n := nat_of_ascii c in ((48 <=? n) && (n <=? 57))%nat.

Fixpoint drop_spaces (s : string) : string :=
  match s with
  | String c s' => if is_space c then drop_spaces s' else s
  | EmptyString => EmptyString
  end.

Definition strip (s : string) : string :=
  String.rev (drop_spaces (String.rev (drop_spaces s))).

Definition reserved : list string :=
  ["true"; "false"; "none"; "True"; "False"; "None"; "not"; "and"; "or";
   "if"; "else"; "in"; "is"; "self"; "range"; "dict"; "lipsum"; "cycler";
   "joiner"; "namespace"].

Definition identifier (s : string) : option string :=
  match s with
  | EmptyString => None
  | String c _ =>
      if negb (is_digit c) && forallb is_ident_char (list_ascii_of_string s)
         && negb (bool_decide (s ∈ reserved))
      then Some s else None
  end.

Definition data (buf : string) (ns : list node) : list node :=
  match buf with EmptyString => ns | _ => TemplateData buf :: ns end.

Definition snoc (buf : string) (c : ascii) : string := buf +:+ String c EmptyString.

Fixpoint lex (s : string) (in_expr : bool) (buf : string) : option (list node) :=
  match s with
  | EmptyString => if in_expr then None else Some (data buf [])
  | String c s' =>
      match s' with
      | String c' rest =>
          if in_expr then
            if (c =? "}")%char && (c' =? "}")%char then
              name ← identifier (strip buf);
              ns ← lex rest false EmptyString;
              Some (Name name :: ns)
            else if (c =? "{")%char || (c =? "}")%char then None
            else lex s' true (snoc buf c)
          else
            if (c =? "{")%char && (c' =? "{")%char then
              data buf <$> lex rest true EmptyString
            else if (c =? "{")%char && ((c' =? "%")%char || (c' =? "#")%char) then None
            else lex s' false (snoc buf c)
      | EmptyString =>
          if in_expr then None else Some (data (snoc buf c) [])
      end
  end.

(** The engine drops one newline at the very end of a template source. *)
Definition chomp (s : string) : string :=
  match String.rev s with
  | String c r => if (c =? ascii_of_nat 10)%char then String.rev r else s
  | EmptyString => s
  end.

Definition parse (source : string) : option (list node) :=
  lex (chomp source) false EmptyString.

(** [str] on the scalar context values; the structured ones are not
    printed by the examples. *)
Definition py_str (v : ctxval) : string :=
  match v with
  | CVal (PStr s) => s
  | CVal PNone => "None"
  | CVal (PBool true) => "True"
  | CVal (PBool false) => "False"
  | _ => "<object>"
  end.
End mini_jinja.

(** ** Example data *)

Definition stamp_of_project (p : string) : SourceStamp :=
  {| ss_branch := None; ss_revision := None; ss_patch := None;
     ss_codebase := None; ss_project := Some p |}.

Definition master_titled (t : string) : Master :=
  {| config := {| title := t; buildbotURL := "http://localhost:8010/" |};
     getURLForBuild := λ _ _, "http://localhost:8010/#/builders/1/builds/1" |}.

Definition example_build : Build :=
  {| build_results := Some 2;
     build_state_string := Some "compiling";
     build_properties := {[ "workername" := (PStr "w1", "Worker") ]};
     build_builder := {| builderid := 1; builder_name := "runtests" |};
     build_number := 7;
     build_buildset :=
       {| sourcestamps :=
            [ {| ss_branch := Some "main"; ss_revision := Some "abc123";
                 ss_patch := None; ss_codebase := Some "";
                 ss_project := Some "A" |} ] |};
     build_prev_build := Some {| prev_results := Some 1 |} |}.

Definition example_fs : gmap (string * string) string :=
  {[ ("templates", "default_mail.txt") := "{{ summary }}";
     ("templates", "missing_mail.txt") := "{{ buildbot_title }}: {{ worker }}";
     ("custom", "strict.txt") := "{{ missing }}" ]}.

Definition example_init :=
  MessageFormatterBase_init mini_jinja.parse example_fs "templates".

Definition strict_summary : Template :=
  {| undefined := StrictUndefined; nodes := [Name "summary"] |}.

(** [MessageFormatter(subject="", ctx={'summary': 'overridden'})] *)
Definition example_self : MessageFormatterBase :=
  {| class_of := MessageFormatter_class;
     body_template := strict_summary;
     subject_template := None;
     template_type := "plain";
     ctx := {[ "summary" := CVal (PStr "overridden") ]} |}.

(** [MessageFormatter(template="{{ summary }}", subject="{{ buildername }}: {{ summary }}")] *)
Definition example_with_subject : MessageFormatterBase :=
  {| class_of := MessageFormatter_class;
     body_template := {| undefined := Undefined; nodes := [Name "summary"] |};
     subject_template :=
       Some {| undefined := Undefined;
               nodes := [Name "buildername"; TemplateData ": "; Name "summary"] |};
     template_type := "plain";
     ctx := ∅ |}.

Definition example_master : Master := master_titled "Buildbot".

Definition example_ctx : gmap string ctxval :=
  {[ "summary" := CVal (PStr "Build succeeded!");
     "buildername" := CVal (PStr "runtests") ]}.

(** [MessageFormatter(subject="", subject_filename="missing_mail.txt")] over
    the example files. *)
Definition example_subject_from_file : MessageFormatterBase :=
  {| class_of := MessageFormatter_class;
     body_template := strict_summary;
     subject_template :=
       Some {| undefined := StrictUndefined;
               nodes := [Name "buildbot_title"; TemplateData ": "; Name "worker"] |};
     template_type := "plain";
     ctx := ∅ |}.

(** A first build: no previous build, no "workername" property. *)
Definition example_first_build : Build :=
  {| build_results := Some 2;
     build_state_string := None;
     build_properties := ∅;
     build_builder := {| builderid := 1; builder_name := "runtests" |};
     build_number := 1;
     build_buildset := {| sourcestamps := [] |};
     build_prev_build := None |}.

(** [MessageFormatterMissingWorker()] over the example files. *)
Definition example_missing_self : MessageFormatterBase :=
  {| class_of := MessageFormatterMissingWorker_class;
     body_template :=
       {| undefined := StrictUndefined;
          nodes := [Name "buildbot_title"; TemplateData ": "; Name "worker"] |};
     subject_template := None;
     template_type := "plain";
     ctx := ∅ |}.

(** ** The vocabulary of the specification *)

(** The result codes are pairwise different. *)
Definition distinct_codes `{Results} : Prop :=
  NoDup [SUCCESS; WARNINGS; FAILURE; EXCEPTION; CANCELLED].

(** The six texts that [get_detected_status_text] spells out itself. *)
Definition fixed_status_texts : list string :=
  ["new failure"; "failed build"; "problem in the build";
   "restored build"; "passing build"; "build exception"].

(** With Buildbot's seven result codes, the generic branch adds three more. *)
Definition nine_status_texts : list string :=
  fixed_status_texts ++ ["skipped build"; "retry build"; "cancelled build"].

(** "mode contains change, the previous result is known and differs from the
    result" *)
Definition changed (mode : list string) (results previous_results : option Z) : Prop :=
  "change" ∈ mode ∧ previous_results ≠ None ∧ previous_results ≠ results.

(** "mode contains problem, the previous result is known, not zero-equivalent,
    and is not FAILURE" *)
Definition new_problem `{Results} (mode : list string) (previous_results : option Z) : Prop :=
  "problem" ∈ mode ∧ (∃ n, previous_results = Some n ∧ n ≠ 0)
  ∧ previous_results ≠ Some FAILURE.

(** "suffix = ': ' + build.state_string if state_string is non-empty, else ''" *)
Definition summary_suffix (build : Build) : string :=
  match build_state_string build with
  | Some s => if decide (s = "") then "" else ": " +:+ s
  | None => ""
  end.

(** The line of one source stamp, in the words of the specification:
    "Build Source Stamp", the quoted codebase when there is one, ": ", the
    bracketed branch when there is one, the revision or "HEAD", " (plus
    patch)" when a patch is present, and a newline. *)
Definition source_stamp_line (ss : SourceStamp) : string :=
  "Build Source Stamp"
  +:+ match ss_codebase ss with
      | Some c => if decide (c = "") then "" else " '" +:+ c +:+ "'"
      | None => ""
      end
  +:+ ": "
  +:+ match ss_branch ss with
      | Some b => if decide (b = "") then "" else "[branch " +:+ b +:+ "] "
      | None => ""
      end
  +:+ match ss_revision ss with
      | Some r => if decide (r = "") then "HEAD" else r
      | None => "HEAD"
      end
  +:+ match ss_patch ss with Some _ => " (plus patch)" | None => "" end
  +:+ newline.

(** A source stamp names the project [p]. *)
Definition names_project (source_stamps : list SourceStamp) (p : string) : Prop :=
  p ≠ "" ∧ ∃ ss, ss ∈ source_stamps ∧ ss_project ss = Some p.

(** An optional argument is supplied when it is given and is not empty: this
    is what the module's conditions test. *)
Definition supplied (o : option string) : Prop := ∃ s, o = Some s ∧ s ≠ "".

(** The message dictionary holds exactly a body, a type and, when there is
    one, a subject. *)
Definition message_record (body type : string) (subject : option string)
    (m : gmap string string) : Prop :=
  ∀ k, m !! k =
       if decide (k = "body") then Some body
       else if decide (k = "type") then Some type
       else if decide (k = "subject") then subject
       else None.

(** The template refers to the context key [key]. *)
Definition references (t : Template) (key : string) : Prop := Name key ∈ nodes t.

(** Where [getTemplate] looks when it loads from a file: the directory given,
    else the bundled one; the file name given, else the class's. *)
Definition search_dir (templates_dir : string) (dirname : option string) : string :=
  default templates_dir dirname.
Definition file_name (cls : FormatterClass) (filename : option string) : string :=
  default (cls_template_filename cls) filename.

(** The message of [config.error] in [getTemplate]. *)
Definition only_one_message : string :=
  "Only one of template or template path can be given".

(** The keys of the context computed for a build, and for a missing
    worker. *)
Definition build_ctx_keys : list string :=
  ["results"; "mode"; "buildername"; "workername"; "buildset"; "build";
   "projects"; "previous_results"; "status_detected"; "build_url";
   "buildbot_url"; "blamelist"; "summary"; "sourcestamps"].

Definition missing_worker_ctx_keys : list string :=
  ["buildbot_title"; "buildbot_url"; "worker"].

(** The previous result [format_message_for_build] derives from a build. *)
Definition previous_results_of (build : Build) : option Z :=
  match build_prev_build build with
  | Some prev => prev_results prev
  | None => None
  end.

(** ** Properties of the status texts *)

Lemma distinct_codes_ne `{Results} :
  distinct_codes →
  SUCCESS ≠ WARNINGS ∧ SUCCESS ≠ FAILURE ∧ SUCCESS ≠ EXCEPTION ∧ SUCCESS ≠ CANCELLED
  ∧ WARNINGS ≠ FAILURE ∧ WARNINGS ≠ EXCEPTION ∧ WARNINGS ≠ CANCELLED
  ∧ FAILURE ≠ EXCEPTION ∧ FAILURE ≠ CANCELLED ∧ EXCEPTION ≠ CANCELLED.
Proof.
  unfold distinct_codes. rewrite !NoDup_cons, !not_elem_of_cons.
  intros (?&?&?&?&?). intuition congruence.
Qed.

Lemma canonical_distinct : @distinct_codes canonical.results.
Proof.
  unfold distinct_codes. apply NoDup_ListNoDup.
  repeat constructor; simpl; intuition lia.
Qed.

Lemma append_nonempty_r (s t : string) : t ≠ "" → s +:+ t ≠ "".
Proof. destruct s; simpl; [done | discriminate]. Qed.

(** The truth of an optional result as a condition: it is known and it is not
    the code zero. *)
Lemma truthy_result (r : option Z) : truthy r = true ↔ ∃ n, r = Some n ∧ n ≠ 0.
Proof.
  destruct r as [n|]; cbv [truthy option_truthy Z_truthy].
  - rewrite negb_true_iff, Z.eqb_neq.
    split; [eauto | intros (m & [= ->] & ?); done].
  - split; [done | intros (m & ? & _); done].
Qed.

Lemma truthy_string (s : string) : truthy s = true ↔ s ≠ "".
Proof. destruct s; cbv [truthy string_truthy]; split; done. Qed.

Lemma py_in_spec (tag : string) (mode : list string) : py_in tag mode = true ↔ tag ∈ mode.
Proof. unfold py_in. by rewrite bool_decide_eq_true. Qed.

(** Membership of a closed list, by evaluation. *)
Ltac in_list := apply (bool_decide_unpack _); vm_compute; exact I.

Ltac not_in_list :=
  rewrite ?not_elem_of_cons; repeat split; try congruence; apply not_elem_of_nil.

Section status_text_facts.
Context `{R : Results}.
Implicit Types (mode : list string) (results previous_results : option Z).

Lemma changed_test mode results previous_results :
  py_in "change" mode && bool_decide (previous_results ≠ None)
    && bool_decide (previous_results ≠ results) = true
  ↔ changed mode results previous_results.
Proof.
  unfold changed.
  rewrite !andb_true_iff, !bool_decide_eq_true, py_in_spec. tauto.
Qed.

Lemma new_problem_test mode previous_results :
  py_in "problem" mode && truthy previous_results
    && bool_decide (previous_results ≠ Some FAILURE) = true
  ↔ new_problem mode previous_results.
Proof.
  unfold new_problem.
  rewrite !andb_true_iff, !bool_decide_eq_true, py_in_spec, truthy_result. tauto.
Qed.

(** C2. With results = FAILURE the text is "new failure" when the mode
    contains "change" and the previous result is known and is not FAILURE;
    failing that, it is "new failure" when the mode contains "problem" and
    the previous result is truthy (known and not the zero code) and is not
    FAILURE; failing both, it is "failed build".  The "change" rule is tried
    first. *)
Theorem failure_status_text mode previous_results :
  let text := get_detected_status_text mode (Some FAILURE) previous_results in
  let change :=
    "change" ∈ mode ∧ previous_results ≠ None ∧ previous_results ≠ Some FAILURE in
  let problem :=
    "problem" ∈ mode ∧ (∃ n, previous_results = Some n ∧ n ≠ 0)
    ∧ previous_results ≠ Some FAILURE in
  (change → text = "new failure")
  ∧ (¬ change → problem → text = "new failure")
  ∧ (¬ change → ¬ problem → text = "failed build").
Proof.
  intros text change problem. subst text.
  unfold get_detected_status_text. rewrite bool_decide_eq_true_2 by done.
  pose proof (changed_test mode (Some FAILURE) previous_results) as Hc.
  pose proof (new_problem_test mode previous_results) as Hp.
  fold change in Hc. fold problem in Hp.
  destruct (_ && _ && _).
  { split; [done |]. split; intros Hn; destruct Hn; by apply Hc. }
  destruct (_ && _ && _).
  { split; [done |]. split; [done |]. intros _ Hn. destruct Hn. by apply Hp. }
  split; [intros H%Hc; done |]. split; [intros _ H%Hp; done | done].
Qed.

Lemma status_text_failure_fixed mode previous_results :
  get_detected_status_text mode (Some FAILURE) previous_results
    ∈ ["new failure"; "failed build"].
Proof.
  unfold get_detected_status_text. rewrite bool_decide_eq_true_2 by done.
  destruct (_ && _ && _); [in_list |].
  destruct (_ && _ && _); in_list.
Qed.

Lemma status_text_warnings mode previous_results :
  WARNINGS ≠ FAILURE →
  get_detected_status_text mode (Some WARNINGS) previous_results
    = "problem in the build".
Proof.
  intros. unfold get_detected_status_text.
  rewrite bool_decide_eq_false_2 by congruence.
  by rewrite bool_decide_eq_true_2.
Qed.

Lemma status_text_success mode previous_results :
  SUCCESS ≠ FAILURE → SUCCESS ≠ WARNINGS →
  get_detected_status_text mode (Some SUCCESS) previous_results
    = if py_in "change" mode && bool_decide (previous_results ≠ None)
           && bool_decide (previous_results ≠ Some SUCCESS)
      then "restored build" else "passing build".
Proof.
  intros. unfold get_detected_status_text.
  rewrite !bool_decide_eq_false_2 by congruence.
  by rewrite bool_decide_eq_true_2.
Qed.

Lemma status_text_exception mode previous_results :
  EXCEPTION ≠ FAILURE → EXCEPTION ≠ WARNINGS → EXCEPTION ≠ SUCCESS →
  get_detected_status_text mode (Some EXCEPTION) previous_results
    = "build exception".
Proof.
  intros. unfold get_detected_status_text.
  rewrite !bool_decide_eq_false_2 by congruence.
  by rewrite bool_decide_eq_true_2.
Qed.

Lemma status_text_other mode results previous_results :
  results ≠ Some FAILURE → results ≠ Some WARNINGS →
  results ≠ Some SUCCESS → results ≠ Some EXCEPTION →
  get_detected_status_text mode results previous_results
    = statusToString results +:+ " build".
Proof.
  intros. unfold get_detected_status_text.
  by rewrite !bool_decide_eq_false_2.
Qed.

(** C6, as amended.  Whatever the mode, the result and the previous result,
    the text is one of the six fixed texts or, for a result that is none of
    FAILURE, WARNINGS, SUCCESS and EXCEPTION, the display name of the result
    followed by " build"; it is never empty.  For SUCCESS it is "restored
    build" when the mode contains "change" and the previous result is known
    and differs from the result, and "passing build" otherwise; WARNINGS
    gives "problem in the build" and EXCEPTION "build exception". *)
Theorem status_text_shape mode results previous_results :
  distinct_codes →
  let text := get_detected_status_text mode results previous_results in
  (text ∈ fixed_status_texts
   ∨ ((results ∉ [Some FAILURE; Some WARNINGS; Some SUCCESS; Some EXCEPTION])
      ∧ text = (statusToString results +:+ " build")))
  ∧ text ≠ ""
  ∧ (results = Some SUCCESS →
       (changed mode results previous_results → text = "restored build")
       ∧ (¬ changed mode results previous_results → text = "passing build"))
  ∧ (results = Some WARNINGS → text = "problem in the build")
  ∧ (results = Some EXCEPTION → text = "build exception").
Proof.
  intros Hd text.
  apply distinct_codes_ne in Hd as (?&?&?&?&?&?&?&?&?&?).
  assert (Hshape : text ∈ fixed_status_texts
    ∨ ((results ∉ [Some FAILURE; Some WARNINGS; Some SUCCESS; Some EXCEPTION])
       ∧ text = (statusToString results +:+ " build"))).
  { subst text.
    destruct (decide (results = Some FAILURE)) as [->|].
    { left. pose proof (status_text_failure_fixed mode previous_results) as Hf.
      unfold fixed_status_texts. set_unfold. tauto. }
    destruct (decide (results = Some WARNINGS)) as [->|].
    { left. rewrite status_text_warnings by done. in_list. }
    destruct (decide (results = Some SUCCESS)) as [->|].
    { left. rewrite status_text_success by done.
      destruct (_ && _ && _); in_list. }
    destruct (decide (results = Some EXCEPTION)) as [->|].
    { left. rewrite status_text_exception by done. in_list. }
    right. split; [by not_in_list | by apply status_text_other]. }
  split; [exact Hshape |]. split.
  { destruct Hshape as [Hin | [_ ->]].
    - intros Hnil. rewrite Hnil in Hin. revert Hin.
      apply (bool_decide_unpack _). vm_compute. exact I.
    - by apply append_nonempty_r. }
  subst text. split; [| split].
  - intros ->. rewrite status_text_success by done.
    pose proof (changed_test mode (Some SUCCESS) previous_results) as Hc.
    destruct (_ && _ && _).
    + split; [done |]. intros Hn. destruct Hn. by apply Hc.
    + split; [| done]. intros Hch%Hc. done.
  - intros ->. by apply status_text_warnings.
  - intros ->. by apply status_text_exception.
Qed.

(** C4. The summary is "Build succeeded!" for SUCCESS, "Build Had Warnings"
    and the suffix for WARNINGS, "Build was cancelled" without the suffix for
    CANCELLED, and "BUILD FAILED" and the suffix for any other result,
    FAILURE and EXCEPTION among them. *)
Theorem summary_text_cases (build : Build) results :
  distinct_codes →
  let text := get_message_summary_text build results in
  (results = Some SUCCESS → text = "Build succeeded!")
  ∧ (results = Some WARNINGS → text = "Build Had Warnings" +:+ summary_suffix build)
  ∧ (results = Some CANCELLED → text = "Build was cancelled")
  ∧ (results ≠ Some SUCCESS → results ≠ Some WARNINGS → results ≠ Some CANCELLED →
       text = "BUILD FAILED" +:+ summary_suffix build)
  ∧ (results = Some FAILURE ∨ results = Some EXCEPTION →
       text = "BUILD FAILED" +:+ summary_suffix build).
Proof.
  intros Hd text. subst text.
  apply distinct_codes_ne in Hd as (?&?&?&?&?&?&?&?&?&?).
  assert (Hsuffix :
    match build_state_string build with
    | Some t => if truthy t then ": " +:+ t else ""
    | None => ""
    end = summary_suffix build).
  { unfold summary_suffix. destruct (build_state_string build) as [[|c t]|]; done. }
  unfold get_message_summary_text. rewrite Hsuffix.
  repeat case_bool_decide; subst;
    repeat split; try done; try congruence; intros [|]; congruence.
Qed.
End status_text_facts.

(** ** Properties of the source stamp text *)

Lemma string_app_assoc (s t u : string) : (s +:+ t) +:+ u = s +:+ (t +:+ u).
Proof.
  induction s as [|c s IH]; [done |].
  change (String c ((s +:+ t) +:+ u) = String c (s +:+ (t +:+ u))). by f_equal.
Qed.

Lemma string_app_nil_r (s : string) : s +:+ "" = s.
Proof.
  induction s as [|c s IH]; [done |].
  change (String c (s +:+ "") = String c s). by f_equal.
Qed.

Lemma truthy_decide {A} (s : string) (x y : A) :
  (if truthy s then x else y) = (if decide (s = "") then y else x).
Proof. destruct s; by case_decide. Qed.

Lemma source_stamp_step_line (text : string) (ss : SourceStamp) :
  source_stamp_step text ss = text +:+ source_stamp_line ss.
Proof.
  unfold source_stamp_step, source_stamp_line. f_equal.
  destruct (ss_codebase ss) as [c|], (ss_branch ss) as [b|],
    (ss_revision ss) as [r|], (ss_patch ss) as [[]|];
    rewrite ?truthy_decide; repeat case_decide;
    rewrite ?string_app_assoc; reflexivity.
Qed.

Lemma fold_source_stamps (source_stamps : list SourceStamp) (text : string) :
  fold_left source_stamp_step source_stamps text
  = text +:+ String.concat "" (source_stamp_line <$> source_stamps).
Proof.
  revert text. induction source_stamps as [|ss l IH]; intros text.
  - simpl. by rewrite string_app_nil_r.
  - cbn [fold_left]. rewrite IH, source_stamp_step_line, string_app_assoc.
    f_equal. destruct l as [|ss' l']; [by cbn; rewrite string_app_nil_r |].
    reflexivity.
Qed.

Lemma source_stamp_line_newline (ss : SourceStamp) :
  ∃ body, source_stamp_line ss = body +:+ newline.
Proof.
  unfold source_stamp_line.
  set (a := match ss_codebase ss with Some _ => _ | None => _ end).
  set (b := match ss_branch ss with Some _ => _ | None => _ end).
  set (c := match ss_revision ss with Some _ => _ | None => _ end).
  set (d := match ss_patch ss with Some _ => _ | None => _ end).
  exists ("Build Source Stamp" +:+ a +:+ ": " +:+ b +:+ c +:+ d).
  by rewrite !string_app_assoc.
Qed.

(** C7. The text is the lines of the stamps one after the other, in the order
    of the sequence; each line has the form the specification gives and ends
    with a newline, the last one too; no stamp, no text. *)
Theorem source_stamp_text_lines (source_stamps : list SourceStamp) :
  get_message_source_stamp_text source_stamps
    = String.concat "" (source_stamp_line <$> source_stamps)
  ∧ Forall (λ line, ∃ body, line = body +:+ newline) (source_stamp_line <$> source_stamps)
  ∧ (∀ ss, get_message_source_stamp_text (source_stamps ++ [ss])
           = get_message_source_stamp_text source_stamps +:+ source_stamp_line ss)
  ∧ get_message_source_stamp_text [] = "".
Proof.
  unfold get_message_source_stamp_text. split; [| split; [| split]].
  - by rewrite fold_source_stamps.
  - apply Forall_fmap, Forall_forall. intros ss _. apply source_stamp_line_newline.
  - intros ss. rewrite fold_left_app. cbn [fold_left].
    apply source_stamp_step_line.
  - reflexivity.
Qed.

Example source_stamp_text_main :
  get_message_source_stamp_text
    [ {| ss_branch := Some "main"; ss_revision := Some "abc123"; ss_patch := None;
         ss_codebase := Some ""; ss_project := None |} ]
  = "Build Source Stamp: [branch main] abc123" +:+ newline.
Proof. vm_compute. reflexivity. Qed.

(** ** Properties of the projects text *)

Lemma elem_of_add_project (projects : gset string) (ss : SourceStamp) (p : string) :
  p ∈ add_project projects ss ↔ p ∈ projects ∨ (p ≠ "" ∧ ss_project ss = Some p).
Proof.
  unfold add_project. destruct (ss_project ss) as [q|].
  - destruct (truthy q) eqn:Hq.
    + apply truthy_string in Hq. rewrite elem_of_union, elem_of_singleton.
      split; [intros [?| ->]; auto | intros [?|[? [= ->]]]; auto].
    + assert (q = "") as -> by (destruct q; [done | discriminate]).
      split; [auto | intros [?|[? [= <-]]]; done].
  - split; [auto | intros [?|[? ?]]; done].
Qed.

Lemma elem_of_fold_projects (l : list SourceStamp) (acc : gset string) (p : string) :
  p ∈ fold_left add_project l acc ↔ p ∈ acc ∨ names_project l p.
Proof.
  revert acc. induction l as [|ss l IH]; intros acc; cbn [fold_left].
  - unfold names_project. split; [auto |].
    intros [?|(_ & ss & Hin & _)]; [done |]. by apply not_elem_of_nil in Hin.
  - rewrite IH, elem_of_add_project. unfold names_project. split.
    + intros [[?|[? ?]]|(? & ss' & ? & ?)]; [by left | right .. ].
      * split; [done |]. exists ss. split; [apply elem_of_cons; by left | done].
      * split; [done |]. exists ss'. split; [apply elem_of_cons; by right | done].
    + intros [?|(? & ss' & [->|?]%elem_of_cons & ?)]; [by left; left | by left; right |].
      right. split; [done |]. by exists ss'.
Qed.

Lemma elem_of_collect_projects (l : list SourceStamp) (p : string) :
  p ∈ collect_projects l ↔ names_project l p.
Proof.
  unfold collect_projects. rewrite elem_of_fold_projects.
  split; [intros [?|?]; [set_solver | done] | auto].
Qed.

Section projects_facts.
Variable set_iter : gset string → list string.
(** Whatever the order, enumerating a set yields each member once. *)
Hypothesis set_iter_perm : ∀ X, set_iter X ≡ₚ elements X.

(** C8. When some stamp has a non-empty project, the text is the distinct
    non-empty projects of the stamps, each once, joined with ", "; when none
    has, it is the title of the master's configuration. *)
Theorem projects_text (source_stamps : list SourceStamp) (master : Master) :
  ((∃ p, names_project source_stamps p) →
     ∃ l, NoDup l ∧ (∀ p, p ∈ l ↔ names_project source_stamps p)
          ∧ get_projects_text set_iter source_stamps master = String.concat ", " l)
  ∧ ((¬ ∃ p, names_project source_stamps p) →
     get_projects_text set_iter source_stamps master = title (config master)).
Proof.
  unfold get_projects_text. split.
  - intros [p Hp]. exists (set_iter (collect_projects source_stamps)).
    split; [| split].
    + rewrite set_iter_perm. apply NoDup_elements.
    + intros q. by rewrite set_iter_perm, elem_of_elements, elem_of_collect_projects.
    + rewrite bool_decide_eq_false_2; [done |].
      intros Hempty. apply elem_of_collect_projects in Hp.
      rewrite Hempty in Hp. by apply not_elem_of_empty in Hp.
  - intros Hnone. rewrite bool_decide_eq_true_2; [done |].
    apply leibniz_equiv, elem_of_equiv_empty. intros p Hp.
    apply Hnone. exists p. by apply elem_of_collect_projects.
Qed.
End projects_facts.

Example projects_text_default :
  get_projects_text elements [] (master_titled "MyProject") = "MyProject".
Proof. vm_compute. reflexivity. Qed.

Lemma projects_text_witness :
  let stamps := stamp_of_project <$> ["A"; "B"; "A"] in
  (∀ X : gset string, elements X ≡ₚ elements X)
  ∧ (∃ p, names_project stamps p)
  ∧ ∃ l, NoDup l ∧ (∀ p, p ∈ l ↔ names_project stamps p)
         ∧ get_projects_text elements stamps (master_titled "X") = String.concat ", " l.
Proof.
  intros stamps.
  assert (Hperm : ∀ X : gset string, elements X ≡ₚ elements X) by reflexivity.
  assert (Hsome : ∃ p, names_project stamps p).
  { exists "A". split; [done |]. exists (stamp_of_project "A").
    split; [apply list_elem_of_here | reflexivity]. }
  split; [exact Hperm |]. split; [exact Hsome |].
  exact (proj1 (projects_text elements Hperm stamps (master_titled "X")) Hsome).
Defined.

(** ** The status texts on examples *)

Lemma failure_status_text_witness :
  ("change" ∈ ["change"] ∧ Some 1 ≠ None ∧ Some 1 ≠ Some (@FAILURE canonical.results))
  ∧ @get_detected_status_text canonical.results ["change"] (Some 2) (Some 1)
    = "new failure".
Proof.
  assert (H : "change" ∈ ["change"] ∧ Some 1 ≠ None
              ∧ Some 1 ≠ Some (@FAILURE canonical.results)).
  { split; [apply list_elem_of_here | split; discriminate]. }
  split; [exact H |].
  exact (proj1 (@failure_status_text canonical.results ["change"] (Some 1)) H).
Defined.

Lemma status_text_shape_witness :
  @distinct_codes canonical.results
  ∧ @get_detected_status_text canonical.results [] (Some 1) None
    = "problem in the build".
Proof.
  split; [exact canonical_distinct |].
  exact (proj1 (proj2 (proj2 (proj2
    (@status_text_shape canonical.results [] (Some 1) None canonical_distinct))))
    eq_refl).
Defined.

(** C6, as stated, fails: with Buildbot's result codes, a number that is no
    result code (and likewise an unfinished build) gets a text outside the
    nine. *)
Lemma status_text_not_nine :
  ¬ (∀ mode results previous_results,
       @get_detected_status_text canonical.results mode results previous_results
       ∈ nine_status_texts).
Proof.
  intros H. specialize (H [] (Some 7) None). revert H.
  apply (bool_decide_unpack _). vm_compute. exact I.
Qed.

Example status_text_invalid :
  @get_detected_status_text canonical.results [] (Some 7) None = "Invalid status build"
  ∧ @get_detected_status_text canonical.results [] None None = "not finished build".
Proof. split; vm_compute; reflexivity. Qed.

(** Over Buildbot's seven result codes the texts are the nine. *)
Lemma canonical_status_texts (mode : list string) (n : Z) (previous_results : option Z) :
  0 ≤ n ≤ 6 →
  @get_detected_status_text canonical.results mode (Some n) previous_results
  ∈ nine_status_texts.
Proof.
  intros Hn.
  assert (n = 0 ∨ n = 1 ∨ n = 2 ∨ n = 3 ∨ n = 4 ∨ n = 5 ∨ n = 6)
    as [->|[->|[->|[->|[->|[->| ->]]]]]] by lia.
  - rewrite (@status_text_success canonical.results) by done.
    destruct (_ && _ && _); in_list.
  - rewrite (@status_text_warnings canonical.results) by done. in_list.
  - pose proof (@status_text_failure_fixed canonical.results mode previous_results) as H.
    unfold nine_status_texts, fixed_status_texts. set_unfold. tauto.
  - rewrite (@status_text_other canonical.results) by done. in_list.
  - rewrite (@status_text_exception canonical.results) by done. in_list.
  - rewrite (@status_text_other canonical.results) by done. in_list.
  - rewrite (@status_text_other canonical.results) by done. in_list.
Qed.

Lemma summary_text_cases_witness :
  @distinct_codes canonical.results
  ∧ @get_message_summary_text canonical.results example_build (Some 2)
    = "BUILD FAILED: compiling".
Proof.
  split; [exact canonical_distinct |].
  exact (proj2 (proj2 (proj2 (proj2
    (@summary_text_cases canonical.results example_build (Some 2) canonical_distinct))))
    (or_introl eq_refl)).
Defined.

Example summary_text_cancelled :
  @get_message_summary_text canonical.results example_build (Some 6)
  = "Build was cancelled".
Proof. vm_compute. reflexivity. Qed.

(** ** Properties of the templates *)

Lemma truthy_supplied (o : option string) : truthy o = true ↔ supplied o.
Proof.
  unfold supplied. destruct o as [s|]; cbv [truthy option_truthy].
  - fold (truthy s). rewrite truthy_string.
    split; [eauto | intros (s' & [= ->] & ?); done].
  - split; [done | intros (s' & ? & _); done].
Qed.

Lemma not_truthy_supplied (o : option string) : truthy o = false ↔ ¬ supplied o.
Proof. rewrite <- truthy_supplied. destruct (truthy o); split; congruence. Qed.

Section render_facts.
Variable py_str : ctxval → string.
Implicit Types (ctx : gmap string ctxval) (ns : list node).

(** Under the default policy rendering cannot raise. *)
Lemma render_nodes_default ctx ns :
  ∃ s, render_nodes py_str Undefined ctx ns = Ok s.
Proof.
  induction ns as [|n ns [s IH]]; [by exists "" |].
  cbn [render_nodes]. rewrite IH.
  destruct n as [d|key]; cbn; [by eexists |].
  destruct (ctx !! key); by eexists.
Qed.

(** Under the strict policy it raises as soon as a referenced key is
    absent, and only then. *)
Lemma render_nodes_strict_missing ctx ns key :
  Name key ∈ ns → ctx !! key = None →
  ∃ key', ctx !! key' = None ∧ Name key' ∈ ns
          ∧ render_nodes py_str StrictUndefined ctx ns = Raise (UndefinedError key').
Proof.
  intros Hin Hkey. induction ns as [|n ns IH]; [by apply not_elem_of_nil in Hin |].
  cbn [render_nodes]. destruct n as [d|k]; cbn.
  - apply elem_of_cons in Hin as [?|Hin]; [done |].
    destruct (IH Hin) as (k' & ? & ? & ->).
    exists k'. split; [done |]. split; [by apply elem_of_cons; right | done].
  - destruct (ctx !! k) eqn:Hk.
    + apply elem_of_cons in Hin as [[= ->]|Hin]; [congruence |].
      destruct (IH Hin) as (k' & ? & ? & ->).
      exists k'. split; [done |]. split; [by apply elem_of_cons; right | done].
    + exists k. split; [done |]. split; [by apply elem_of_cons; left | done].
Qed.

Lemma render_nodes_strict_defined ctx ns :
  (∀ key, Name key ∈ ns → is_Some (ctx !! key)) →
  ∃ s, render_nodes py_str StrictUndefined ctx ns = Ok s.
Proof.
  induction ns as [|n ns IH]; intros Hall; [by exists "" |].
  destruct IH as [s IH].
  { intros key ?. apply Hall. by apply elem_of_cons; right. }
  cbn [render_nodes]. rewrite IH. destruct n as [d|key]; cbn; [by eexists |].
  destruct (Hall key) as [v ->]; [by apply elem_of_cons; left |]. by eexists.
Qed.
End render_facts.

Section formatter_facts.
Context `{R : Results}.
Variable parse : string → option (list node).
Variable py_str : ctxval → string.
Variable fs : gmap (string * string) string.
Variable templates_dir : string.
Variable set_iter : gset string → list string.

Notation getTemplate := (getTemplate parse fs templates_dir).
Notation init := (MessageFormatterBase_init parse fs templates_dir).
Notation renderMessage := (renderMessage py_str).

Notation search_dir := (search_dir templates_dir).

Lemma getTemplate_conflict cls filename dirname content :
  supplied content → supplied filename ∨ supplied dirname →
  getTemplate cls filename dirname content = Raise (ConfigErrors only_one_message).
Proof.
  intros Hc Hfd. unfold getTemplate.
  apply truthy_supplied in Hc. rewrite Hc.
  assert (truthy filename || truthy dirname = true) as ->; [| done].
  apply orb_true_iff. by rewrite !truthy_supplied.
Qed.

Lemma getTemplate_from_file cls filename dirname content :
  ¬ supplied content →
  getTemplate cls filename dirname content
  = get_template parse fs (search_dir dirname) StrictUndefined (file_name cls filename).
Proof.
  intros Hc. unfold getTemplate.
  pose proof Hc as Hf. apply not_truthy_supplied in Hf. rewrite Hf. cbn.
  unfold search_dir, file_name.
  destruct content as [c|]; [| by destruct dirname, filename].
  cbv [truthy option_truthy] in Hf. fold (truthy c) in Hf. rewrite Hf.
  by destruct dirname, filename.
Qed.

Lemma getTemplate_inline cls content :
  content ≠ "" →
  getTemplate cls None None (Some content) = jinja2_Template parse content.
Proof.
  intros Hc. unfold getTemplate.
  assert (truthy content = true) as Ht by (by apply truthy_string).
  cbv [truthy option_truthy]. fold (truthy content). by rewrite Ht.
Qed.

(** C3. Non-empty inline content together with a file name or a directory
    is a configuration error, raised by [getTemplate] and so by the
    constructor, before there is a formatter to render with.  Without inline
    content the directory defaults to the bundled one and the file name to
    the class's, and a file that is not there is a template-not-found
    error. *)
Theorem getTemplate_errors cls filename dirname content :
  (supplied content → supplied filename ∨ supplied dirname →
     getTemplate cls filename dirname content = Raise (ConfigErrors only_one_message)
     ∧ ∀ subject_filename subject template_type ctx,
         init cls dirname filename content subject_filename subject template_type ctx
         = Raise (ConfigErrors only_one_message))
  ∧ (¬ supplied content →
       search_dir None = templates_dir
       ∧ file_name cls None = cls_template_filename cls
       ∧ getTemplate cls filename dirname content
         = get_template parse fs (search_dir dirname) StrictUndefined
             (file_name cls filename)
       ∧ (fs !! (search_dir dirname, file_name cls filename) = None →
          getTemplate cls filename dirname content
          = Raise (TemplateNotFound (file_name cls filename)))).
Proof.
  split.
  - intros Hc Hfd.
    pose proof (getTemplate_conflict cls filename dirname content Hc Hfd) as Herr.
    split; [exact Herr |]. intros. unfold MessageFormatterBase_init.
    by rewrite Herr.
  - intros Hc. split; [done |]. split; [done |].
    pose proof (getTemplate_from_file cls filename dirname content Hc) as Hfile.
    split; [exact Hfile |]. intros Hnone. rewrite Hfile.
    unfold get_template. by rewrite Hnone.
Qed.

(** C10, as amended. An empty inline string counts as no inline content:
    [getTemplate] does what it does for [None], which is never the
    configuration error but the load from the (defaulted) directory and file
    name; and the constructor given an empty subject does what it does given
    none: with no subject file name either there is no subject template, and
    with one the subject template is the one loaded from that file. *)
Theorem empty_inline_is_absent cls filename dirname :
  getTemplate cls filename dirname (Some "") = getTemplate cls filename dirname None
  ∧ getTemplate cls filename dirname (Some "")
    = get_template parse fs (search_dir dirname) StrictUndefined (file_name cls filename)
  ∧ (∀ msg, getTemplate cls filename dirname (Some "") ≠ Raise (ConfigErrors msg))
  ∧ (∀ template subject_filename template_type ctx,
       init cls dirname filename template subject_filename (Some "") template_type ctx
       = init cls dirname filename template subject_filename None template_type ctx)
  ∧ (∀ template subject_filename template_type ctx self,
       ¬ supplied subject_filename →
       init cls dirname filename template subject_filename (Some "") template_type ctx
       = Ok self →
       subject_template self = None)
  ∧ (∀ template subject_filename template_type ctx self,
       supplied subject_filename →
       init cls dirname filename template subject_filename (Some "") template_type ctx
       = Ok self →
       ∃ st, subject_template self = Some st
             ∧ get_template parse fs (search_dir dirname) StrictUndefined
                 (file_name cls subject_filename) = Ok st).
Proof.
  assert (Hempty : ¬ supplied (Some "")) by (intros (s & [= <-] & ?); done).
  assert (Hnone : ¬ supplied None) by (intros (s & ? & _); done).
  assert (Hsame : ∀ f d, getTemplate cls f d (Some "") = getTemplate cls f d None).
  { intros. by rewrite !getTemplate_from_file. }
  split; [apply Hsame |]. split; [by apply getTemplate_from_file |]. split.
  { intros msg. rewrite getTemplate_from_file by done.
    unfold get_template, compile. by repeat case_match. }
  split; [| split].
  - intros. unfold MessageFormatterBase_init. rewrite Hsame.
    by replace (truthy (Some "")) with (truthy (@None string)).
  - intros template subject_filename template_type ctx self Hsf.
    apply not_truthy_supplied in Hsf.
    unfold MessageFormatterBase_init. rewrite Hsf.
    destruct (getTemplate cls filename dirname template); cbn; [| done].
    by intros [= <-].
  - intros template subject_filename template_type ctx self Hsf.
    apply truthy_supplied in Hsf.
    unfold MessageFormatterBase_init. rewrite Hsf. cbn [orb].
    rewrite (getTemplate_from_file cls subject_filename dirname (Some "")) by done.
    destruct (getTemplate cls filename dirname template); cbn; [| done].
    destruct (get_template parse fs (search_dir dirname) StrictUndefined
                (file_name cls subject_filename)) as [st|]; cbn; [| done].
    intros [= <-]. by exists st.
Qed.

(** C5. Both entry points render with the computed context passed through
    the hook and then updated with the formatter's extra context: a key of
    the extra context has the extra context's value, whatever the computed
    context or the hook gave it, every other key keeps what the hook left,
    and no key the hook left is lost. *)
Theorem extra_context_last (self : MessageFormatterBase) (master : Master) :
  (∀ mode buildername build blamelist,
     format_message_for_build py_str set_iter self mode buildername build master blamelist
     = renderMessage self
         (final_ctx self master (build_ctx set_iter mode buildername build master blamelist)))
  ∧ (∀ worker,
       formatMessageForMissingWorker py_str self master worker
       = renderMessage self (final_ctx self master (missing_worker_ctx master worker)))
  ∧ (∀ computed : gmap string ctxval,
       let hooked := buildAdditionalContext (class_of self) master computed in
       let final := final_ctx self master computed in
       (∀ k v, ctx self !! k = Some v → final !! k = Some v)
       ∧ (∀ k, ctx self !! k = None → final !! k = hooked !! k)
       ∧ (∀ k, is_Some (hooked !! k) → is_Some (final !! k))).
Proof.
  split; [done |]. split; [done |].
  intros computed hooked final. subst final. unfold final_ctx, dict_update.
  fold hooked. split; [| split].
  - intros k v Hk. by apply lookup_union_Some_l.
  - intros k Hk. by apply lookup_union_r.
  - intros k [v Hv]. destruct (ctx self !! k) as [w|] eqn:Hk.
    + exists w. by apply lookup_union_Some_l.
    + exists v. by rewrite lookup_union_r.
Qed.

Lemma message_record_body_type (body type : string) :
  message_record body type None (<["type" := type]> (<["body" := body]> ∅)).
Proof.
  intros k. rewrite !lookup_insert, lookup_empty.
  repeat case_decide; simplify_eq; done.
Qed.

Lemma message_record_subject (body type subject : string) :
  message_record body type (Some subject)
    (<["subject" := subject]> (<["type" := type]> (<["body" := body]> ∅))).
Proof.
  intros k. rewrite !lookup_insert, lookup_empty.
  repeat case_decide; simplify_eq; done.
Qed.

(** C9. When the templates render, [renderMessage] returns the dictionary
    of the rendered body and the formatter's type, with the rendered subject
    exactly when there is a subject template, and nothing else; a returned
    dictionary always comes about so, and its type is the same at every
    call. *)
Theorem renderMessage_record (self : MessageFormatterBase) (ctx : gmap string ctxval) :
  (∀ body, render py_str (body_template self) ctx = Ok body →
     subject_template self = None →
     ∃ m, renderMessage self ctx = Ok m
          ∧ message_record body (template_type self) None m)
  ∧ (∀ body t subject, render py_str (body_template self) ctx = Ok body →
       subject_template self = Some t → render py_str t ctx = Ok subject →
       ∃ m, renderMessage self ctx = Ok m
            ∧ message_record body (template_type self) (Some subject) m)
  ∧ (∀ m, renderMessage self ctx = Ok m →
       ∃ body, render py_str (body_template self) ctx = Ok body
         ∧ message_record body (template_type self) (m !! "subject") m
         ∧ (is_Some (m !! "subject") ↔ is_Some (subject_template self))
         ∧ (∀ t, subject_template self = Some t →
                 render py_str t ctx = Ok (default "" (m !! "subject"))))
  ∧ (∀ ctx' m m', renderMessage self ctx = Ok m → renderMessage self ctx' = Ok m' →
       m !! "type" = Some (template_type self) ∧ m' !! "type" = m !! "type").
Proof.
  assert (Hback : ∀ c m, renderMessage self c = Ok m →
    ∃ body, render py_str (body_template self) c = Ok body
      ∧ message_record body (template_type self) (m !! "subject") m
      ∧ (is_Some (m !! "subject") ↔ is_Some (subject_template self))
      ∧ (∀ t, subject_template self = Some t →
              render py_str t c = Ok (default "" (m !! "subject")))).
  { intros c m. unfold renderMessage.
    destruct (render py_str (body_template self) c) as [body|] eqn:Hb; cbn; [| done].
    destruct (subject_template self) as [t|] eqn:Ht.
    - destruct (render py_str t c) as [subject|] eqn:Hs; cbn; [| done].
      intros [= <-]. exists body. split; [done |].
      pose proof (message_record_subject body (template_type self) subject) as Hm.
      assert (Hsub : (<["subject" := subject]>
        (<["type" := template_type self]> (<["body" := body]> ∅)) : gmap string string)
        !! "subject" = Some subject) by apply lookup_insert_eq.
      rewrite Hsub. split; [exact Hm |]. split; [by split; eauto |].
      by intros t' [= <-].
    - intros [= <-]. exists body. split; [done |].
      pose proof (message_record_body_type body (template_type self)) as Hm.
      assert (Hsub : (<["type" := template_type self]> (<["body" := body]> ∅)
                        : gmap string string) !! "subject" = None) by done.
      rewrite Hsub. split; [exact Hm |].
      split; [split; intros [? ?]; done | done]. }
  split; [| split; [| split]].
  - intros body Hb Hs. unfold renderMessage. rewrite Hb, Hs. cbn.
    eexists. split; [done |]. apply message_record_body_type.
  - intros body t subject Hb Ht Hs. unfold renderMessage. rewrite Hb, Ht. cbn.
    rewrite Hs. cbn. eexists. split; [done |]. apply message_record_subject.
  - apply Hback.
  - intros ctx' m m' Hm Hm'.
    destruct (Hback _ _ Hm) as (b & _ & Hr & _).
    destruct (Hback _ _ Hm') as (b' & _ & Hr' & _).
    by rewrite (Hr "type"), (Hr' "type").
Qed.
End formatter_facts.

(** ** Strictness of the compiled templates *)

Section strictness.
Variable parse : string → option (list node).
Variable py_str : ctxval → string.
Variable fs : gmap (string * string) string.
Variable templates_dir : string.

(** A template loaded from a file is strict: rendering it without a key it
    refers to raises. *)
Lemma file_template_strict cls filename dirname content t ctx key :
  ¬ supplied content →
  getTemplate parse fs templates_dir cls filename dirname content = Ok t →
  references t key → ctx !! key = None →
  ∃ key', ctx !! key' = None ∧ references t key'
          ∧ render py_str t ctx = Raise (UndefinedError key').
Proof.
  intros Hc Ht Href Hkey. rewrite getTemplate_from_file in Ht by done.
  unfold get_template, compile in Ht. repeat case_match; simplify_eq.
  unfold render, references in *. cbn in *.
  by eapply render_nodes_strict_missing.
Qed.

(** A template compiled from inline content is not: rendering it never
    raises, whatever the context lacks. *)
Lemma inline_template_lenient cls content t ctx :
  content ≠ "" →
  getTemplate parse fs templates_dir cls None None (Some content) = Ok t →
  undefined t = Undefined ∧ ∃ s, render py_str t ctx = Ok s.
Proof.
  intros Hc Ht. rewrite getTemplate_inline in Ht by done.
  unfold jinja2_Template, compile in Ht. case_match; simplify_eq.
  split; [done |]. unfold render. cbn. apply render_nodes_default.
Qed.
End strictness.

(** ** The formatter at work on examples *)

(** C1, where the code parts from it: the same template text, rendered over a
    context without the key it refers to, raises when it was loaded from a
    file and renders the key as the empty string when it was given inline. *)
Theorem inline_template_not_strict :
  (∃ t, getTemplate mini_jinja.parse example_fs "templates" MessageFormatter_class
          (Some "strict.txt") (Some "custom") None = Ok t
        ∧ references t "missing"
        ∧ render mini_jinja.py_str t ∅ = Raise (UndefinedError "missing"))
  ∧ (∃ t, getTemplate mini_jinja.parse example_fs "templates" MessageFormatter_class
            None None (Some "{{ missing }}") = Ok t
          ∧ references t "missing"
          ∧ render mini_jinja.py_str t ∅ = Ok "")
  ∧ (∃ self, example_init MessageFormatter_class None None (Some "{{ missing }}")
               None None None None = Ok self
             ∧ renderMessage mini_jinja.py_str self ∅
               = Ok (<["type" := "plain"]> (<["body" := ""]> ∅))).
Proof.
  split; [| split].
  - exists {| undefined := StrictUndefined; nodes := [Name "missing"] |}.
    split; [vm_compute; reflexivity |].
    split; [apply list_elem_of_here | vm_compute; reflexivity].
  - exists {| undefined := Undefined; nodes := [Name "missing"] |}.
    split; [vm_compute; reflexivity |].
    split; [apply list_elem_of_here | vm_compute; reflexivity].
  - exists {| class_of := MessageFormatter_class;
              body_template := {| undefined := Undefined; nodes := [Name "missing"] |};
              subject_template := None;
              template_type := "plain";
              ctx := ∅ |}.
    split; vm_compute; reflexivity.
Qed.

Example render_summary_inline :
  ∃ self, example_init MessageFormatter_class None None (Some "{{ summary }}")
            None None None None = Ok self
          ∧ renderMessage mini_jinja.py_str self
              {[ "summary" := CVal (PStr "Build succeeded!") ]}
            = Ok (<["type" := "plain"]> (<["body" := "Build succeeded!"]> ∅)).
Proof.
  exists {| class_of := MessageFormatter_class;
            body_template := {| undefined := Undefined; nodes := [Name "summary"] |};
            subject_template := None;
            template_type := "plain";
            ctx := ∅ |}.
  split; vm_compute; reflexivity.
Qed.

Example example_self_built :
  example_init MessageFormatter_class None None None None (Some "")
    None (Some {[ "summary" := CVal (PStr "overridden") ]})
  = Ok example_self.
Proof. vm_compute. reflexivity. Qed.

Example example_with_subject_built :
  example_init MessageFormatter_class None None (Some "{{ summary }}")
    None (Some "{{ buildername }}: {{ summary }}") None None
  = Ok example_with_subject.
Proof. vm_compute. reflexivity. Qed.

Lemma supplied_nonempty (s : string) : s ≠ "" → supplied (Some s).
Proof. intros. by exists s. Qed.

Lemma not_supplied_None : ¬ supplied None.
Proof. by intros (s & ? & _). Qed.

Lemma getTemplate_errors_witness :
  (supplied (Some "{{ summary }}")
   ∧ (supplied (Some "default_mail.txt") ∨ supplied None)
   ∧ getTemplate mini_jinja.parse example_fs "templates" MessageFormatter_class
       (Some "default_mail.txt") None (Some "{{ summary }}")
     = Raise (ConfigErrors only_one_message))
  ∧ (¬ supplied None
     ∧ example_fs !! (search_dir "templates" None,
                      file_name MessageFormatter_class (Some "nothing.txt")) = None
     ∧ getTemplate mini_jinja.parse example_fs "templates" MessageFormatter_class
         (Some "nothing.txt") None None
       = Raise (TemplateNotFound "nothing.txt")).
Proof.
  assert (Hc : supplied (Some "{{ summary }}")) by (by apply supplied_nonempty).
  assert (Hf : supplied (Some "default_mail.txt") ∨ supplied None)
    by (left; by apply supplied_nonempty).
  assert (Hnone : example_fs !! (search_dir "templates" None,
            file_name MessageFormatter_class (Some "nothing.txt")) = None)
    by (vm_compute; reflexivity).
  split.
  - split; [exact Hc |]. split; [exact Hf |].
    exact (proj1 (proj1 (getTemplate_errors mini_jinja.parse example_fs "templates"
      MessageFormatter_class (Some "default_mail.txt") None (Some "{{ summary }}"))
      Hc Hf)).
  - split; [exact not_supplied_None |]. split; [exact Hnone |].
    exact (proj2 (proj2 (proj2 (proj2 (getTemplate_errors mini_jinja.parse example_fs
      "templates" MessageFormatter_class (Some "nothing.txt") None None)
      not_supplied_None))) Hnone).
Defined.

Lemma empty_inline_is_absent_witness :
  ¬ supplied None
  ∧ example_init MessageFormatter_class None None None None (Some "")
      None (Some {[ "summary" := CVal (PStr "overridden") ]})
    = Ok example_self
  ∧ subject_template example_self = None.
Proof.
  split; [exact not_supplied_None |]. split; [exact example_self_built |].
  exact (proj1 (proj2 (proj2 (proj2 (proj2 (empty_inline_is_absent mini_jinja.parse
    example_fs "templates" MessageFormatter_class None None)))))
    None None None (Some {[ "summary" := CVal (PStr "overridden") ]}) example_self
    not_supplied_None example_self_built).
Defined.

(** C10, as stated, fails: an empty subject given together with a subject
    file name does yield a subject template, the one loaded from that file. *)
Lemma empty_subject_with_filename :
  ¬ (∀ subject_filename self,
       example_init MessageFormatter_class None None None subject_filename (Some "")
         None None = Ok self →
       subject_template self = None).
Proof.
  intros H.
  assert (Hbuilt : example_init MessageFormatter_class None None None
                     (Some "missing_mail.txt") (Some "") None None
                   = Ok example_subject_from_file) by (vm_compute; reflexivity).
  specialize (H (Some "missing_mail.txt") example_subject_from_file Hbuilt).
  discriminate H.
Qed.

Lemma extra_context_last_witness :
  let computed :=
    @build_ctx canonical.results elements ["change"] "runtests" example_build
      example_master ["alice"] in
  ctx example_self !! "summary" = Some (CVal (PStr "overridden"))
  ∧ final_ctx example_self example_master computed !! "summary"
    = Some (CVal (PStr "overridden")).
Proof.
  intros computed.
  assert (H : ctx example_self !! "summary" = Some (CVal (PStr "overridden")))
    by (vm_compute; reflexivity).
  split; [exact H |].
  exact (proj1 (proj2 (proj2 (@extra_context_last canonical.results
    mini_jinja.py_str elements example_self example_master)) computed) _ _ H).
Defined.

Example format_message_overridden :
  @format_message_for_build canonical.results mini_jinja.py_str elements
    example_self ["change"] "runtests" example_build example_master ["alice"]
  = Ok (<["type" := "plain"]> (<["body" := "overridden"]> ∅)).
Proof. vm_compute. reflexivity. Qed.

Example computed_summary :
  @build_ctx canonical.results elements ["change"] "runtests" example_build
    example_master ["alice"] !! "summary"
  = Some (CVal (PStr "BUILD FAILED: compiling")).
Proof. vm_compute. reflexivity. Qed.

Lemma renderMessage_record_witness :
  (render mini_jinja.py_str (body_template example_with_subject) example_ctx
     = Ok "Build succeeded!"
   ∧ subject_template example_with_subject
     = Some {| undefined := Undefined;
               nodes := [Name "buildername"; TemplateData ": "; Name "summary"] |}
   ∧ render mini_jinja.py_str
       {| undefined := Undefined;
          nodes := [Name "buildername"; TemplateData ": "; Name "summary"] |}
       example_ctx
     = Ok "runtests: Build succeeded!")
  ∧ ∃ m, renderMessage mini_jinja.py_str example_with_subject example_ctx = Ok m
         ∧ message_record "Build succeeded!" "plain"
             (Some "runtests: Build succeeded!") m.
Proof.
  assert (Hb : render mini_jinja.py_str (body_template example_with_subject) example_ctx
               = Ok "Build succeeded!") by (vm_compute; reflexivity).
  assert (Hs : render mini_jinja.py_str
       {| undefined := Undefined;
          nodes := [Name "buildername"; TemplateData ": "; Name "summary"] |}
       example_ctx = Ok "runtests: Build succeeded!") by (vm_compute; reflexivity).
  split; [split; [exact Hb | split; [reflexivity | exact Hs]] |].
  exact (proj1 (proj2 (renderMessage_record mini_jinja.py_str example_with_subject
    example_ctx)) _ _ _ Hb eq_refl Hs).
Defined.

(** ** Further properties of the status texts *)

Lemma string_length_app (s t : string) :
  String.length (s +:+ t) = (String.length s + String.length t)%nat.
Proof.
  induction s as [|c s IH]; [done |].
  change (S (String.length (s +:+ t)) = S (String.length s + String.length t)).
  by f_equal.
Qed.

(** The generic text, which ends in " build", is never "new failure". *)
Lemma generic_text_not_new_failure (s : string) : s +:+ " build" ≠ "new failure".
Proof.
  intros H. pose proof (f_equal String.length H) as Hlen.
  rewrite string_length_app in Hlen.
  destruct s as [|a1 [|a2 [|a3 [|a4 [|a5 [|a6 s]]]]]];
    try (vm_compute in Hlen; discriminate Hlen).
  - vm_compute in H. discriminate H.
  - simpl in Hlen. lia.
Qed.

Lemma py_in_ext (tag : string) (mode mode' : list string) :
  (tag ∈ mode ↔ tag ∈ mode') → py_in tag mode = py_in tag mode'.
Proof. intros. unfold py_in. by apply bool_decide_ext. Qed.

Section more_status_text_facts.
Context `{R : Results}.
Implicit Types (mode : list string) (results previous_results : option Z).

(** The text looks at the mode only to see whether it holds "change" and
    whether it holds "problem": no other tag, order or repetition matters. *)
Theorem status_text_mode_tags mode mode' results previous_results :
  ("change" ∈ mode ↔ "change" ∈ mode') →
  ("problem" ∈ mode ↔ "problem" ∈ mode') →
  get_detected_status_text mode results previous_results
  = get_detected_status_text mode' results previous_results.
Proof.
  intros Hc Hp. unfold get_detected_status_text.
  by rewrite (py_in_ext "change" mode mode' Hc), (py_in_ext "problem" mode mode' Hp).
Qed.

(** Once the mode holds "change", "problem" adds nothing: any two modes that
    hold "change" give the same text. *)
Theorem status_text_change_subsumes mode mode' results previous_results :
  "change" ∈ mode → "change" ∈ mode' →
  get_detected_status_text mode results previous_results
  = get_detected_status_text mode' results previous_results.
Proof.
  intros Hc Hc'. apply py_in_spec in Hc, Hc'.
  unfold get_detected_status_text. rewrite Hc, Hc'. cbn [andb].
  case_bool_decide as Hres; [| done]. subst results.
  destruct previous_results as [n|].
  - destruct (decide (n = FAILURE)) as [->|Hn].
    + rewrite !(bool_decide_eq_false_2 (Some FAILURE ≠ Some FAILURE)) by (intros ?; done).
      by rewrite !andb_false_r.
    + rewrite !(bool_decide_eq_true_2 (Some n ≠ None)) by done.
      by rewrite !(bool_decide_eq_true_2 (Some n ≠ Some FAILURE)) by congruence.
  - rewrite !(bool_decide_eq_false_2 (None ≠ None)) by (intros ?; done).
    cbn [andb]. cbv [truthy option_truthy]. by rewrite !andb_false_r.
Qed.

(** Without a previous result, or with one equal to the result, there is no
    news whatever the mode: a failure is a "failed build" and a success a
    "passing build". *)
Theorem status_text_no_news mode results previous_results :
  distinct_codes →
  previous_results = None ∨ previous_results = results →
  (results = Some FAILURE →
     get_detected_status_text mode results previous_results = "failed build")
  ∧ (results = Some SUCCESS →
       get_detected_status_text mode results previous_results = "passing build").
Proof.
  intros Hd Hprev.
  apply distinct_codes_ne in Hd as (?&?&?&?&?&?&?&?&?&?).
  assert (Htest : py_in "change" mode && bool_decide (previous_results ≠ None)
                    && bool_decide (previous_results ≠ results) = false).
  { destruct Hprev as [->| ->].
    - rewrite (bool_decide_eq_false_2 (None ≠ None)) by (intros ?; done).
      by rewrite andb_false_r.
    - rewrite (bool_decide_eq_false_2 (results ≠ results)) by (intros ?; done).
      by rewrite andb_false_r. }
  split; intros ->.
  - unfold get_detected_status_text. rewrite bool_decide_eq_true_2 by done.
    rewrite Htest.
    assert (py_in "problem" mode && truthy previous_results
            && bool_decide (previous_results ≠ Some FAILURE) = false) as ->; [| done].
    destruct Hprev as [->| ->].
    + cbv [truthy option_truthy]. by rewrite andb_false_r.
    + rewrite (bool_decide_eq_false_2 (Some FAILURE ≠ Some FAILURE)) by (intros ?; done).
      by rewrite andb_false_r.
  - rewrite status_text_success by done. by rewrite Htest.
Qed.

(** A previous result with the code zero does not count for the "problem"
    rule: without "change" in the mode, a failure after it is only a "failed
    build". *)
Theorem status_text_previous_zero mode :
  "change" ∉ mode →
  get_detected_status_text mode (Some FAILURE) (Some 0) = "failed build".
Proof.
  intros Hc. unfold get_detected_status_text.
  rewrite bool_decide_eq_true_2 by done.
  assert (py_in "change" mode = false) as ->.
  { unfold py_in. by apply bool_decide_eq_false_2. }
  cbn [andb]. cbv [truthy option_truthy Z_truthy]. cbn [Z.eqb negb].
  by rewrite andb_false_r.
Qed.

(** "new failure" is only ever said of a failed build whose previous result
    is known and is not a failure, under a mode that asks for changes or for
    problems. *)
Theorem new_failure_sound mode results previous_results :
  get_detected_status_text mode results previous_results = "new failure" →
  results = Some FAILURE
  ∧ (∃ n, previous_results = Some n ∧ n ≠ FAILURE)
  ∧ ("change" ∈ mode ∨ "problem" ∈ mode).
Proof.
  unfold get_detected_status_text.
  case_bool_decide as Hres.
  - subst results.
    destruct (py_in "change" mode && _ && _) eqn:Hchange.
    + intros _. apply changed_test in Hchange as (Hin & Hknown & Hne).
      split; [done |]. split; [| by left].
      destruct previous_results as [n|]; [| done].
      exists n. split; [done | congruence].
    + destruct (py_in "problem" mode && _ && _) eqn:Hproblem; [| discriminate].
      intros _. apply new_problem_test in Hproblem as (Hin & (n & -> & _) & Hne).
      split; [done |]. split; [| by right].
      exists n. split; [done | congruence].
  - destruct (bool_decide (results = Some WARNINGS)); [discriminate |].
    destruct (bool_decide (results = Some SUCCESS)).
    { destruct (_ && _ && _); discriminate. }
    destruct (bool_decide (results = Some EXCEPTION)); [discriminate |].
    intros Hgen. by apply generic_text_not_new_failure in Hgen.
Qed.
End more_status_text_facts.

(** ** Further properties of the source stamp and projects texts *)

Lemma source_stamp_line_nonempty (ss : SourceStamp) : source_stamp_line ss ≠ "".
Proof. unfold source_stamp_line. discriminate. Qed.

Lemma string_app_eq_nil (s t : string) : s +:+ t = "" → s = "" ∧ t = "".
Proof. destruct s; [done | discriminate]. Qed.

(** The text of a sequence of stamps put together from two is the text of the
    first followed by the text of the second. *)
Theorem source_stamp_text_app (l1 l2 : list SourceStamp) :
  get_message_source_stamp_text (l1 ++ l2)
  = get_message_source_stamp_text l1 +:+ get_message_source_stamp_text l2.
Proof.
  unfold get_message_source_stamp_text.
  rewrite fold_left_app, (fold_source_stamps l2), (fold_source_stamps l2 "").
  reflexivity.
Qed.

(** The text is empty only when there is no stamp. *)
Theorem source_stamp_text_empty (source_stamps : list SourceStamp) :
  get_message_source_stamp_text source_stamps = "" ↔ source_stamps = [].
Proof.
  split; [| by intros ->].
  destruct source_stamps as [|ss l]; [done |].
  unfold get_message_source_stamp_text. cbn [fold_left].
  rewrite fold_source_stamps, source_stamp_step_line.
  intros [[_ Hline]%string_app_eq_nil _]%string_app_eq_nil.
  by apply source_stamp_line_nonempty in Hline.
Qed.



(** When the stamps name one project only, the text is that project's name,
    however the set is enumerated. *)
Theorem projects_text_single (set_iter : gset string → list string)
    (source_stamps : list SourceStamp) (master : Master) (p : string) :
  (∀ X, set_iter X ≡ₚ elements X) →
  names_project source_stamps p →
  (∀ q, names_project source_stamps q → q = p) →
  get_projects_text set_iter source_stamps master = p.
Proof.
  intros Hperm Hp Honly. unfold get_projects_text.
  assert (collect_projects source_stamps = {[p]}) as ->.
  { apply set_eq. intros q. rewrite elem_of_collect_projects, elem_of_singleton.
    split; [apply Honly | by intros ->]. }
  rewrite bool_decide_eq_false_2.
  - pose proof (Hperm {[p]}) as Hl. rewrite elements_singleton in Hl.
    apply Permutation_singleton_r in Hl. by rewrite Hl.
  - intros Hempty. assert (p ∈ (∅ : gset string)) as Hin
      by (rewrite <- Hempty; by apply elem_of_singleton).
    by apply not_elem_of_empty in Hin.
Qed.

(** ** Further properties of the constructors and of [getTemplate] *)

Section more_template_facts.
Variable parse : string → option (list node).
Variable py_str : ctxval → string.
Variable fs : gmap (string * string) string.
Variable templates_dir : string.

Notation getTemplate := (getTemplate parse fs templates_dir).
Notation init := (MessageFormatterBase_init parse fs templates_dir).

Lemma init_unfold cls d tf t sf s tt c :
  init cls d tf t sf s tt c
  = match getTemplate cls tf d t with
    | Raise e => Raise e
    | Ok body =>
        match (if truthy sf || truthy s
               then Some <$> getTemplate cls sf d s else Ok None) with
        | Raise e => Raise e
        | Ok subject =>
            Ok {| class_of := cls; body_template := body;
                  subject_template := subject;
                  template_type := default (cls_template_type cls) tt;
                  ctx := default ∅ c |}
        end
    end.
Proof.
  unfold MessageFormatterBase_init.
  destruct (getTemplate cls tf d t); cbn; [| done].
  destruct (if truthy sf || truthy s then _ else _); cbn; [| done].
  by destruct tt, c.
Qed.

Lemma subject_wanted (sf s : option string) :
  truthy sf || truthy s = true ↔ supplied sf ∨ supplied s.
Proof. by rewrite orb_true_iff, !truthy_supplied. Qed.

(** What a successful construction leaves on the instance: the class, the
    body template [getTemplate] resolved, the type given or else the class's,
    the extra context given or else an empty one, and a subject template
    exactly when a subject or a subject file name was supplied. *)
Theorem init_attributes cls d tf t sf s tt c self :
  init cls d tf t sf s tt c = Ok self →
  class_of self = cls
  ∧ getTemplate cls tf d t = Ok (body_template self)
  ∧ template_type self = default (cls_template_type cls) tt
  ∧ ctx self = default ∅ c
  ∧ (supplied sf ∨ supplied s →
       ∃ st, subject_template self = Some st ∧ getTemplate cls sf d s = Ok st)
  ∧ (¬ (supplied sf ∨ supplied s) → subject_template self = None).
Proof.
  rewrite init_unfold.
  destruct (getTemplate cls tf d t) as [body|]; [| done].
  destruct (truthy sf || truthy s) eqn:Hw.
  - apply subject_wanted in Hw.
    destruct (getTemplate cls sf d s) as [st|]; cbn; [| done].
    intros [= <-]. cbn. repeat split; try done. by exists st.
  - intros [= <-]. cbn. repeat split; try done.
    + intros Hs. apply subject_wanted in Hs. congruence.
Qed.

(** An inline subject cannot go with a template directory: the subject is
    resolved against the same directory, so the constructor raises (the
    configuration error, when the body template itself resolves). *)
Theorem init_subject_with_dir cls d tf t sf s tt c :
  supplied d → supplied s →
  (∀ self, init cls d tf t sf s tt c ≠ Ok self)
  ∧ (∀ body, getTemplate cls tf d t = Ok body →
       init cls d tf t sf s tt c = Raise (ConfigErrors only_one_message)).
Proof.
  intros Hd Hs.
  assert (Hsub : getTemplate cls sf d s = Raise (ConfigErrors only_one_message))
    by (apply getTemplate_conflict; auto).
  assert (Hw : truthy sf || truthy s = true) by (apply subject_wanted; auto).
  rewrite init_unfold, Hw, Hsub. cbn. split.
  - intros self. by destruct (getTemplate cls tf d t).
  - by intros body ->.
Qed.

(** [template_name], when given, takes the place of [template_filename],
    whatever that was; so it too conflicts with an inline template. *)
Theorem template_name_alias d tf t n sf s tt c :
  MessageFormatter_init parse fs templates_dir d tf t (Some n) sf s tt c
  = MessageFormatter_init parse fs templates_dir d (Some n) t None sf s tt c
  ∧ (supplied (Some n) → supplied t →
       MessageFormatter_init parse fs templates_dir d tf t (Some n) sf s tt c
       = Raise (ConfigErrors only_one_message)).
Proof.
  split; [done |]. intros Hn Ht. unfold MessageFormatter_init.
  rewrite init_unfold, getTemplate_conflict; auto.
Qed.

End more_template_facts.

(** ** Further properties of rendering and of the entry points *)

Lemma build_ctx_dom `{R : Results} (set_iter : gset string → list string)
    mode buildername build master blamelist :
  dom (build_ctx set_iter mode buildername build master blamelist)
  = list_to_set build_ctx_keys.
Proof. unfold build_ctx. by rewrite dom_list_to_map_L. Qed.

Lemma missing_worker_ctx_dom master worker :
  dom (missing_worker_ctx master worker) = list_to_set missing_worker_ctx_keys.
Proof. unfold missing_worker_ctx. by rewrite dom_list_to_map_L. Qed.

Section more_formatter_facts.
Context `{R : Results}.
Variable py_str : ctxval → string.
Variable set_iter : gset string → list string.

(** [renderMessage] raises exactly the error of the body template, or, the
    body rendered, the error of the subject template; a body that raises
    hides whatever the subject would do. *)
Theorem renderMessage_raises (self : MessageFormatterBase)
    (c : gmap string ctxval) (e : error) :
  renderMessage py_str self c = Raise e
  ↔ render py_str (body_template self) c = Raise e
    ∨ ((∃ body, render py_str (body_template self) c = Ok body)
       ∧ ∃ t, subject_template self = Some t ∧ render py_str t c = Raise e).
Proof.
  unfold renderMessage.
  destruct (render py_str (body_template self) c) as [body|e'] eqn:Hb; cbn.
  - destruct (subject_template self) as [t|] eqn:Ht.
    + destruct (render py_str t c) as [subject|e''] eqn:Hs; cbn.
      * split; [done |]. intros [?|[_ (t' & [= <-] & ?)]]; congruence.
      * split.
        -- intros [= ->]. right. split; [by eexists |]. by exists t.
        -- intros [?|[_ (t' & [= <-] & ?)]]; congruence.
    + split; [done |]. intros [?|[_ (t' & ? & _)]]; congruence.
  - split; [intros [= ->]; by left |].
    intros [[= ->]|[[body ?] _]]; [done | congruence].
Qed.

(** With the hook of this module's classes, which does nothing, the context
    rendered is the computed one updated with the extra context, and is the
    computed one itself when there is no extra context. *)
Theorem default_hook_ctx (self : MessageFormatterBase) (master : Master)
    (computed : gmap string ctxval) :
  class_of self ∈ [MessageFormatterBase_class; MessageFormatter_class;
                   MessageFormatterMissingWorker_class] →
  final_ctx self master computed = dict_update computed (ctx self)
  ∧ (ctx self = ∅ → final_ctx self master computed = computed).
Proof.
  intros Hcls.
  assert (Hhook : buildAdditionalContext (class_of self) master computed = computed).
  { rewrite !elem_of_cons in Hcls.
    destruct Hcls as [->|[->|[->|Hnil]]]; [done .. |].
    by apply not_elem_of_nil in Hnil. }
  unfold final_ctx. rewrite Hhook. split; [done |].
  intros ->. unfold dict_update. apply (left_id_L ∅ (∪)).
Qed.

(** The context computed for a build has exactly the fourteen documented
    keys, and the one for a missing worker exactly three, the worker record
    itself under "worker". *)
Theorem computed_ctx_keys mode buildername build master blamelist worker :
  (∀ k, is_Some (build_ctx set_iter mode buildername build master blamelist !! k)
        ↔ k ∈ build_ctx_keys)
  ∧ (∀ k, is_Some (missing_worker_ctx master worker !! k)
          ↔ k ∈ missing_worker_ctx_keys)
  ∧ missing_worker_ctx master worker !! "worker" = Some (CVal worker).
Proof.
  split; [| split].
  - intros k. by rewrite <- elem_of_dom, build_ctx_dom, elem_of_list_to_set.
  - intros k. by rewrite <- elem_of_dom, missing_worker_ctx_dom, elem_of_list_to_set.
  - unfold missing_worker_ctx. cbn [list_to_map foldr fst snd].
    rewrite !lookup_insert_ne by discriminate. apply lookup_insert_eq.
Qed.
End more_formatter_facts.

Lemma status_text_failure_first `{R : Results} (mode : list string) :
  get_detected_status_text mode (Some FAILURE) None = "failed build".
Proof.
  unfold get_detected_status_text. rewrite bool_decide_eq_true_2 by done.
  rewrite (bool_decide_eq_false_2 (None ≠ None)) by (intros ?; done).
  cbv [truthy option_truthy]. by rewrite !andb_false_r.
Qed.

Lemma status_text_success_first `{R : Results} (mode : list string) :
  SUCCESS ≠ FAILURE → SUCCESS ≠ WARNINGS →
  get_detected_status_text mode (Some SUCCESS) None = "passing build".
Proof.
  intros. rewrite status_text_success by done.
  rewrite (bool_decide_eq_false_2 (None ≠ None)) by (intros ?; done).
  by rewrite andb_false_r.
Qed.

(** Looking a key up in a [dict(...)] literal. *)
Ltac dict_lookup :=
  cbn [list_to_map foldr fst snd];
  rewrite ?lookup_insert_ne by discriminate; apply lookup_insert_eq.

Section entry_point_facts.
Context `{R : Results}.
Variable py_str : ctxval → string.
Variable set_iter : gset string → list string.

(** The worker's name in the context is the value of the build's
    "workername" property, and "<unknown>" when the build has none. *)
Theorem workername_in_ctx mode buildername build master blamelist :
  (build_properties build !! "workername" = None →
     build_ctx set_iter mode buildername build master blamelist !! "workername"
     = Some (CVal (PStr "<unknown>")))
  ∧ (∀ v source, build_properties build !! "workername" = Some (v, source) →
       build_ctx set_iter mode buildername build master blamelist !! "workername"
       = Some (CVal v)).
Proof.
  split; [intros Hw | intros v source Hw]; unfold build_ctx; rewrite Hw; dict_lookup.
Qed.

(** The detected status in the context is computed from the results of the
    previous build; for a build without one, a failure is a "failed build"
    and a success a "passing build" under every mode. *)
Theorem status_detected_in_ctx mode buildername build master blamelist :
  distinct_codes →
  let c := build_ctx set_iter mode buildername build master blamelist in
  c !! "status_detected"
  = Some (CVal (PStr (get_detected_status_text mode (build_results build)
                        (previous_results_of build))))
  ∧ (build_prev_build build = None →
       c !! "previous_results" = Some (CVal PNone)
       ∧ (build_results build = Some FAILURE →
            c !! "status_detected" = Some (CVal (PStr "failed build")))
       ∧ (build_results build = Some SUCCESS →
            c !! "status_detected" = Some (CVal (PStr "passing build")))).
Proof.
  intros Hd c. subst c.
  apply distinct_codes_ne in Hd as (?&?&?&?&?&?&?&?&?&?).
  assert (Hstatus :
    build_ctx set_iter mode buildername build master blamelist !! "status_detected"
    = Some (CVal (PStr (get_detected_status_text mode (build_results build)
                          (previous_results_of build))))).
  { unfold build_ctx, previous_results_of. dict_lookup. }
  split; [exact Hstatus |]. intros Hprev. rewrite Hstatus.
  unfold previous_results_of. rewrite Hprev. split; [| split].
  - unfold build_ctx. rewrite Hprev. dict_lookup.
  - intros ->. by rewrite status_text_failure_first.
  - intros ->. by rewrite status_text_success_first.
Qed.

End entry_point_facts.

(** ** The further properties on examples *)

Lemma status_text_mode_tags_witness :
  (("change" ∈ ["failing"; "change"] ↔ "change" ∈ ["change"; "passing"; "change"])
   ∧ ("problem" ∈ ["failing"; "change"] ↔ "problem" ∈ ["change"; "passing"; "change"]))
  ∧ @get_detected_status_text canonical.results ["failing"; "change"] (Some 2) (Some 0)
    = @get_detected_status_text canonical.results ["change"; "passing"; "change"]
        (Some 2) (Some 0).
Proof.
  assert (Hc : "change" ∈ ["failing"; "change"]
               ↔ "change" ∈ ["change"; "passing"; "change"]).
  { split; intros _; in_list. }
  assert (Hp : "problem" ∈ ["failing"; "change"]
               ↔ "problem" ∈ ["change"; "passing"; "change"]).
  { split; intros Hin; exfalso; revert Hin;
      apply (bool_decide_unpack _); vm_compute; exact I. }
  split; [by split |].
  exact (@status_text_mode_tags canonical.results _ _ (Some 2) (Some 0) Hc Hp).
Defined.

Lemma status_text_change_subsumes_witness :
  ("change" ∈ ["change"] ∧ "change" ∈ ["problem"; "change"])
  ∧ @get_detected_status_text canonical.results ["change"] (Some 2) (Some 1)
    = @get_detected_status_text canonical.results ["problem"; "change"] (Some 2) (Some 1).
Proof.
  assert (H1 : "change" ∈ ["change"]) by in_list.
  assert (H2 : "change" ∈ ["problem"; "change"]) by in_list.
  split; [by split |].
  exact (@status_text_change_subsumes canonical.results _ _ (Some 2) (Some 1) H1 H2).
Defined.

Lemma status_text_no_news_witness :
  (@distinct_codes canonical.results ∧ (Some 2 = None ∨ Some 2 = Some 2))
  ∧ @get_detected_status_text canonical.results ["change"; "problem"] (Some 2) (Some 2)
    = "failed build".
Proof.
  assert (H : Some 2 = None ∨ Some 2 = Some 2) by (by right).
  split; [split; [exact canonical_distinct | exact H] |].
  exact (proj1 (@status_text_no_news canonical.results ["change"; "problem"]
    (Some 2) (Some 2) canonical_distinct H) eq_refl).
Defined.

Lemma status_text_previous_zero_witness :
  ("change" ∉ ["problem"])
  ∧ @get_detected_status_text canonical.results ["problem"] (Some 2) (Some 0)
    = "failed build".
Proof.
  assert (H : "change" ∉ ["problem"])
    by (apply (bool_decide_unpack _); vm_compute; exact I).
  split; [exact H |].
  exact (@status_text_previous_zero canonical.results ["problem"] H).
Defined.

Lemma new_failure_sound_witness :
  @get_detected_status_text canonical.results ["problem"] (Some 2) (Some 1)
  = "new failure"
  ∧ (∃ n, Some 1 = Some n ∧ n ≠ @FAILURE canonical.results).
Proof.
  assert (H : @get_detected_status_text canonical.results ["problem"] (Some 2) (Some 1)
              = "new failure") by (vm_compute; reflexivity).
  split; [exact H |].
  exact (proj1 (proj2 (@new_failure_sound canonical.results ["problem"]
    (Some 2) (Some 1) H))).
Defined.

Lemma source_stamp_text_empty_witness :
  get_message_source_stamp_text [] = "" ∧ @nil SourceStamp = [].
Proof.
  assert (H : get_message_source_stamp_text [] = "") by reflexivity.
  split; [exact H |].
  exact (proj1 (source_stamp_text_empty []) H).
Defined.

Lemma names_project_A (l : list string) (p : string) :
  names_project (stamp_of_project <$> l) p ↔ p ≠ "" ∧ p ∈ l.
Proof.
  unfold names_project. split.
  - intros (Hne & ss & (q & -> & Hq)%list_elem_of_fmap & [= <-]). done.
  - intros (Hne & Hin). split; [done |]. exists (stamp_of_project p).
    split; [| done]. apply list_elem_of_fmap. by exists p.
Qed.


Example projects_text_two_orders :
  get_projects_text elements (stamp_of_project <$> ["A"; "B"; "A"]) example_master
  ≠ get_projects_text (λ X, reverse (elements X))
      (stamp_of_project <$> ["B"; "A"]) example_master.
Proof. vm_compute. discriminate. Qed.

Lemma projects_text_single_witness :
  ((∀ X : gset string, elements X ≡ₚ elements X)
   ∧ names_project (stamp_of_project <$> ["A"; ""; "A"]) "A"
   ∧ (∀ q, names_project (stamp_of_project <$> ["A"; ""; "A"]) q → q = "A"))
  ∧ get_projects_text elements (stamp_of_project <$> ["A"; ""; "A"]) example_master
    = "A".
Proof.
  assert (Hperm : ∀ X : gset string, elements X ≡ₚ elements X) by reflexivity.
  assert (Hp : names_project (stamp_of_project <$> ["A"; ""; "A"]) "A").
  { apply names_project_A. split; [done | in_list]. }
  assert (Honly : ∀ q, names_project (stamp_of_project <$> ["A"; ""; "A"]) q → q = "A").
  { intros q [Hne Hin]%names_project_A. rewrite !elem_of_cons in Hin.
    destruct Hin as [?|[?|[?|Hnil]]]; [done .. |]. by apply not_elem_of_nil in Hnil. }
  split; [exact (conj Hperm (conj Hp Honly)) |].
  exact (projects_text_single elements _ example_master "A" Hperm Hp Honly).
Defined.

Lemma init_attributes_witness :
  example_init MessageFormatter_class None None None None (Some "")
    None (Some {[ "summary" := CVal (PStr "overridden") ]})
  = Ok example_self
  ∧ template_type example_self = "plain"
  ∧ ctx example_self = {[ "summary" := CVal (PStr "overridden") ]}.
Proof.
  split; [exact example_self_built |].
  pose proof (init_attributes mini_jinja.parse example_fs "templates"
    MessageFormatter_class None None None None (Some "") None
    (Some {[ "summary" := CVal (PStr "overridden") ]}) example_self
    example_self_built) as (_ & _ & Htype & Hctx & _).
  split; [exact Htype | exact Hctx].
Defined.

Lemma init_subject_with_dir_witness :
  (supplied (Some "custom") ∧ supplied (Some "{{ summary }}"))
  ∧ ∀ self, example_init MessageFormatter_class (Some "custom") (Some "strict.txt")
              None None (Some "{{ summary }}") None None ≠ Ok self.
Proof.
  assert (Hd : supplied (Some "custom")) by (by apply supplied_nonempty).
  assert (Hs : supplied (Some "{{ summary }}")) by (by apply supplied_nonempty).
  split; [by split |].
  exact (proj1 (init_subject_with_dir mini_jinja.parse example_fs "templates"
    MessageFormatter_class (Some "custom") (Some "strict.txt") None None
    (Some "{{ summary }}") None None Hd Hs)).
Defined.

Lemma template_name_alias_witness :
  (supplied (Some "default_mail.txt") ∧ supplied (Some "{{ summary }}"))
  ∧ MessageFormatter_init mini_jinja.parse example_fs "templates" None None
      (Some "{{ summary }}") (Some "default_mail.txt") None None None None
    = Raise (ConfigErrors only_one_message).
Proof.
  assert (Hn : supplied (Some "default_mail.txt")) by (by apply supplied_nonempty).
  assert (Ht : supplied (Some "{{ summary }}")) by (by apply supplied_nonempty).
  split; [by split |].
  exact (proj2 (template_name_alias mini_jinja.parse example_fs "templates" None None
    (Some "{{ summary }}") "default_mail.txt" None None None None) Hn Ht).
Defined.

Lemma renderMessage_raises_witness :
  render mini_jinja.py_str (body_template example_self) ∅
  = Raise (UndefinedError "summary")
  ∧ renderMessage mini_jinja.py_str example_self ∅ = Raise (UndefinedError "summary").
Proof.
  assert (H : render mini_jinja.py_str (body_template example_self) ∅
              = Raise (UndefinedError "summary")) by (vm_compute; reflexivity).
  split; [exact H |].
  exact (proj2 (renderMessage_raises mini_jinja.py_str example_self ∅
    (UndefinedError "summary")) (or_introl H)).
Defined.

Lemma default_hook_ctx_witness :
  class_of example_missing_self
    ∈ [MessageFormatterBase_class; MessageFormatter_class;
       MessageFormatterMissingWorker_class]
  ∧ ctx example_missing_self = ∅
  ∧ final_ctx example_missing_self example_master
      (missing_worker_ctx example_master (PStr "w1"))
    = missing_worker_ctx example_master (PStr "w1").
Proof.
  assert (Hcls : class_of example_missing_self
    ∈ [MessageFormatterBase_class; MessageFormatter_class;
       MessageFormatterMissingWorker_class]).
  { do 2 apply list_elem_of_further. apply list_elem_of_here. }
  split; [exact Hcls |]. split; [reflexivity |].
  exact (proj2 (default_hook_ctx example_missing_self example_master _ Hcls) eq_refl).
Defined.

Lemma computed_ctx_keys_witness :
  "summary" ∈ build_ctx_keys
  ∧ is_Some (@build_ctx canonical.results elements ["change"] "runtests" example_build
               example_master ["alice"] !! "summary").
Proof.
  assert (H : "summary" ∈ build_ctx_keys) by in_list.
  split; [exact H |].
  exact (proj2 (proj1 (@computed_ctx_keys canonical.results elements ["change"]
    "runtests" example_build example_master ["alice"] PNone) "summary") H).
Defined.

Lemma workername_in_ctx_witness :
  build_properties example_first_build !! "workername" = None
  ∧ @build_ctx canonical.results elements ["change"] "runtests" example_first_build
      example_master [] !! "workername"
    = Some (CVal (PStr "<unknown>")).
Proof.
  assert (H : build_properties example_first_build !! "workername" = None)
    by reflexivity.
  split; [exact H |].
  exact (proj1 (@workername_in_ctx canonical.results elements ["change"] "runtests"
    example_first_build example_master []) H).
Defined.

Lemma status_detected_in_ctx_witness :
  (@distinct_codes canonical.results
   ∧ build_prev_build example_first_build = None
   ∧ build_results example_first_build = Some (@FAILURE canonical.results))
  ∧ @build_ctx canonical.results elements ["change"; "problem"] "runtests"
      example_first_build example_master [] !! "status_detected"
    = Some (CVal (PStr "failed build")).
Proof.
  split; [split; [exact canonical_distinct | by split] |].
  exact (proj1 (proj2 (proj2 (@status_detected_in_ctx canonical.results elements
    ["change"; "problem"] "runtests" example_first_build example_master []
    canonical_distinct) eq_refl)) eq_refl).
Defined.

Example missing_worker_message :
  formatMessageForMissingWorker mini_jinja.py_str example_missing_self
    (master_titled "Buildbot") (PStr "w1")
  = Ok (<["type" := "plain"]> (<["body" := "Buildbot: w1"]> ∅)).
Proof. vm_compute. reflexivity. Qed.

Example missing_worker_built :
  example_init MessageFormatterMissingWorker_class None None None None None None None
  = Ok example_missing_self.
Proof. vm_compute. reflexivity. Qed.
